(** * SQL AI API (missions/mission4/py/main.py)

    A shallow embedding of the FastAPI service: the health endpoint, the
    paginated product listing, the similarity search in its two forms
    (find_products, search_products) and the two chat endpoints.

    The database driver, the database itself, the hosted chat model and the
    Python runtime are outside the file.  They are modelled as follows.
    - Every handler is a computation in [M]: it threads a [state] (a counter
      of connections and the log of driver calls) and either returns a value
      or raises a Python exception, which stops the handler at that point.
    - The database and the chat model are a [world]: whether connecting
      works, the product table, what the stored procedure does on a search
      term, and what the chat model answers.
    - The server reads the SQL text it is sent: it knows the statements
      that the service writes and answers each from the table and the
      stored procedure of the world.
    - Python's [repr] of a database scalar and [json.loads] are section
      variables: the results hold for every such function. *)

From Stdlib Require Import Decimal DecimalPos DecimalZ DecimalString.
From Stdlib Require Import List String Ascii ZArith Lia Bool.
From Stdlib Require Import Sorting.Sorted Sorting.Permutation.
Import ListNotations.

Open Scope string_scope.
Open Scope list_scope.
Open Scope Z_scope.

(** ** Python values that cross the service *)

(** A scalar returned by the driver. *)
Inductive value : Type :=
| VNone
| VInt (z : Z)
| VStr (s : string)
| VBool (b : bool).

(** A fetched row: the driver's Row object, a tuple of scalars. *)
Definition row := list value.

(** A Python dict with string keys: insertion ordered, one entry per key. *)
Definition mapping := list (string * value).

Fixpoint dict_set (k : string) (v : value) (d : mapping) : mapping :=
  match d with
  | [] => [(k, v)]
  | (k', v') :: d' =>
      if String.eqb k k' then (k', v) :: d' else (k', v') :: dict_set k v d'
  end.

Fixpoint dict_get (k : string) (d : mapping) : option value :=
  match d with
  | [] => None
  | (k', v) :: d' => if String.eqb k k' then Some v else dict_get k d'
  end.

(** [dict(pairs)]: later pairs overwrite earlier ones with the same key. *)
Definition dict (pairs : list (string * value)) : mapping :=
  fold_left (fun d kv => dict_set (fst kv) (snd kv) d) pairs [].

(** [zip]: stops at the shorter argument, as [combine] does. *)
Definition zip {A B : Type} (l : list A) (l' : list B) : list (A * B) :=
  combine l l'.

(** Python exceptions that the handlers can meet. *)
Inductive exn : Type :=
| ConnectionError (msg : string)
| QueryError (msg : string)
| TypeError (msg : string)
| ChatModelError (msg : string)
| JSONDecodeError (msg : string)
| ValueError (msg : string)
| Unsupported (msg : string)
| OutOfFuel.

Inductive outcome (A : Type) : Type :=
| Return (a : A)
| Raise (e : exn).
Arguments Return {A} a.
Arguments Raise {A} e.

(** A JSON document, as [json.loads] builds it. *)
#[local] Unset Elimination Schemes.
Inductive json : Type :=
| JNull
| JBool (b : bool)
| JNum (z : Z)
| JStr (s : string)
| JArr (items : list json)
| JObj (fields : list (string * json)).
#[local] Set Elimination Schemes.

(** ** Text forms *)

Definition nl : string := String "010"%char EmptyString.
Definition dq : string := String "034"%char EmptyString.

(** The decimal text of an integer. *)
Definition str_int (z : Z) : string := NilZero.string_of_int (Z.to_int z).

(** Python prints an int only up to 4300 decimal digits
    ([sys.get_int_max_str_digits()]): the integers below this bound. *)
Definition int_str_bound : Z := Eval vm_compute in 10 ^ 4300.

(** [str(n)] and [f"{n}"] for a Python int: the decimal text, or ValueError
    when there are more than 4300 digits. *)
Definition format_int (z : Z) : outcome string :=
  if Z.abs z <? int_str_bound
  then Return (str_int z)
  else Raise (ValueError
                "Exceeds the limit (4300 digits) for integer string conversion").

Definition is_ws (c : ascii) : bool :=
  (Ascii.eqb c " " || Ascii.eqb c "009" || Ascii.eqb c "010"
   || Ascii.eqb c "013")%char.

Fixpoint skip_ws (s : string) : string :=
  match s with
  | String c rest => if is_ws c then skip_ws rest else s
  | EmptyString => s
  end.

(** What is left of [s] after the prefix [p], if [s] starts with it. *)
Fixpoint strip_prefix (p s : string) : option string :=
  match p with
  | EmptyString => Some s
  | String a p' =>
      match s with
      | String b s' => if Ascii.eqb a b then strip_prefix p' s' else None
      | EmptyString => None
      end
  end.

Definition digit_of_char (c : ascii) : option (uint -> uint) :=
  if Ascii.eqb c "0" then Some D0
  else if Ascii.eqb c "1" then Some D1
  else if Ascii.eqb c "2" then Some D2
  else if Ascii.eqb c "3" then Some D3
  else if Ascii.eqb c "4" then Some D4
  else if Ascii.eqb c "5" then Some D5
  else if Ascii.eqb c "6" then Some D6
  else if Ascii.eqb c "7" then Some D7
  else if Ascii.eqb c "8" then Some D8
  else if Ascii.eqb c "9" then Some D9
  else None.

Definition starts_with_digit (s : string) : bool :=
  match s with
  | String c _ => match digit_of_char c with Some _ => true | None => false end
  | EmptyString => false
  end.

(** The longest run of decimal digits at the head of a text. *)
Fixpoint read_uint (s : string) : uint * string :=
  match s with
  | String c rest =>
      match digit_of_char c with
      | Some d => let (u, r) := read_uint rest in (d u, r)
      | None => (Nil, s)
      end
  | EmptyString => (Nil, s)
  end.

(** An integer literal at the head of a text: an optional minus sign and
    one digit at least. *)
Definition read_int (s : string) : option (Z * string) :=
  match s with
  | String c rest =>
      if Ascii.eqb c "-" then
        match read_uint rest with
        | (Nil, _) => None
        | (u, r) => Some (Z.of_int (Neg u), r)
        end
      else
        match read_uint s with
        | (Nil, _) => None
        | (u, r) => Some (Z.of_int (Pos u), r)
        end
  | EmptyString => None
  end.

(** [repr] of a tuple of already rendered items. *)
Definition repr_tuple (items : list string) : string :=
  ("(" ++ String.concat ", " items
       ++ (if Nat.eqb (List.length items) 1 then "," else "") ++ ")")%string.

(** [str] of a list of already rendered items. *)
Definition str_list (items : list string) : string :=
  ("[" ++ String.concat ", " items ++ "]")%string.

(** [repr] of a dict from rendered keys and values. *)
Definition repr_dict (items : list (string * string)) : string :=
  ("{" ++ String.concat ", "
            (map (fun kv => (fst kv ++ ": " ++ snd kv)%string) items)
       ++ "}")%string.

(** A [repr] for scalars that is Python's on None, ints, booleans and on
    strings without quotes, backslashes or control characters. *)
Definition repr_plain (v : value) : string :=
  match v with
  | VNone => "None"
  | VInt z => str_int z
  | VStr s => ("'" ++ s ++ "'")%string
  | VBool true => "True"
  | VBool false => "False"
  end.

(** Truth value of a string: empty is false. *)
Definition truthy (s : string) : bool := negb (String.eqb s "").

(** ** The driver and the world behind it *)

(** One entry of [cursor.description]: the column name comes first
    ([desc[0]]), then the type code. *)
Definition column_desc := (string * string)%type.

(** What the cursor is positioned on: nothing that has columns, or a result
    set with its descriptor and its rows. *)
Inductive result_set : Type :=
| NoResult
| ResultSet (descriptor : list column_desc) (rows : list row).

(** [cursor.description]: None when the current result has no columns. *)
Definition description_of (r : result_set) : option (list column_desc) :=
  match r with
  | NoResult => None
  | ResultSet d _ => Some d
  end.

(** [cursor.fetchall()] on the current result: every remaining row, none
    when the result has no columns. *)
Definition rows_of (r : result_set) : list row :=
  match r with
  | NoResult => []
  | ResultSet _ rs => rs
  end.

(** A row of dbo.walmart_ecommerce_product_details. *)
Record product : Type := mkProduct {
  p_id : Z;
  p_item_id : value;
  p_product_name : value;
  p_product_category : value;
  p_price_retail : value;
  p_price_current : value
}.

(** What [dbo].[get_similar_items] does on a search term: it emits result
    sets and sets its OUTPUT parameter, or it emits some result sets and
    then fails. *)
Inductive proc_outcome : Type :=
| ProcReturn (sets : list result_set) (out : value)
| ProcRaise (sets : list result_set) (e : exn).

Inductive message : Type :=
| SystemMessage (content : string)
| HumanMessage (content : string).

Record world : Type := mkWorld {
  connect_error : option exn;
  product_table : list product;
  get_similar_items : string -> proc_outcome;
  chat_model_invoke : list message -> outcome string
}.

(** The two statements the service sends, by what it writes into them. *)
Inductive statement : Type :=
| ProductsPage (offset page_size : Z)
| SimilarItems (search_term : string).

(** The f-string of get_products around its two printed fields. *)
Definition products_query_text (offset_text page_size_text : string)
  : string :=
  (nl ++ "        SELECT id, item_id, product_name, product_category, price_retail, price_current" ++ nl
      ++ "        FROM dbo.walmart_ecommerce_product_details" ++ nl
      ++ "        ORDER BY id" ++ nl
      ++ "        OFFSET " ++ offset_text ++ " ROWS FETCH NEXT "
      ++ page_size_text ++ " ROWS ONLY" ++ nl
      ++ "    ")%string.

(** The text of the listing for an offset and a page size. *)
Definition products_query (offset page_size : Z) : string :=
  products_query_text (str_int offset) (str_int page_size).

(** The f-string itself: it prints offset, then page_size, and raises
    ValueError when one of them has more than 4300 digits. *)
Definition format_products_query (offset page_size : Z) : outcome string :=
  match format_int offset with
  | Raise e => Raise e
  | Return offset_text =>
      match format_int page_size with
      | Raise e => Raise e
      | Return page_size_text =>
          Return (products_query_text offset_text page_size_text)
      end
  end.

(** The batch of find_products and search_products. *)
Definition similar_items_sql : string :=
  ("SET NOCOUNT ON;" ++ nl
      ++ "    DECLARE @out nvarchar(max);" ++ nl
      ++ "    EXEC [dbo].[get_similar_items] @inputText = ?, @error = @out OUTPUT;" ++ nl
      ++ "    SELECT @out AS error;")%string.

Definition sql_text (q : statement) : string :=
  match q with
  | ProductsPage offset page_size => products_query offset page_size
  | SimilarItems _ => similar_items_sql
  end.

Definition sql_params (q : statement) : list string :=
  match q with
  | ProductsPage _ _ => []
  | SimilarItems search_term => [search_term]
  end.

(** ORDER BY id, as a stable insertion sort: rows of equal id come in the
    order in which the table holds them, which is any order. *)
Fixpoint insert_by_id (p : product) (l : list product) : list product :=
  match l with
  | [] => [p]
  | q :: l' => if p_id p <=? p_id q then p :: l else q :: insert_by_id p l'
  end.

Definition order_by_id (t : list product) : list product :=
  fold_right insert_by_id [] t.

Definition product_descriptor : list column_desc :=
  [("id", "int"); ("item_id", "nvarchar"); ("product_name", "nvarchar");
   ("product_category", "nvarchar"); ("price_retail", "decimal");
   ("price_current", "decimal")].

Definition product_row (p : product) : row :=
  [VInt (p_id p); p_item_id p; p_product_name p; p_product_category p;
   p_price_retail p; p_price_current p].

(** OFFSET o ROWS FETCH NEXT n ROWS ONLY over the ordered table. *)
Definition offset_fetch (o n : Z) (t : list product) : list product :=
  firstn (Z.to_nat n) (skipn (Z.to_nat o) t).

(** The result of [SELECT @out AS error]: one column, one row. *)
Definition error_result (out : value) : result_set :=
  ResultSet [("error", "nvarchar")] [[out]].

(** *** The server reads the text

    The statements the server knows, written as the service writes them.
    A batch is a sequence of them separated by semicolons; any other text
    is a syntax error. *)
Inductive tsql : Type :=
| SetNocountOn
| DeclareOut
| ExecSimilarItems
| SelectOutAsError
| SelectProductsPage (offset fetch : Z).

(** The listing up to the number after OFFSET. *)
Definition select_products_head : string :=
  ("SELECT id, item_id, product_name, product_category, price_retail, price_current" ++ nl
      ++ "        FROM dbo.walmart_ecommerce_product_details" ++ nl
      ++ "        ORDER BY id" ++ nl
      ++ "        OFFSET ")%string.

Definition parse_products_page (s : string) : option (tsql * string) :=
  match strip_prefix select_products_head s with
  | None => None
  | Some s1 =>
      match read_int s1 with
      | None => None
      | Some (offset, s2) =>
          match strip_prefix " ROWS FETCH NEXT " s2 with
          | None => None
          | Some s3 =>
              match read_int s3 with
              | None => None
              | Some (fetch, s4) =>
                  match strip_prefix " ROWS ONLY" s4 with
                  | None => None
                  | Some s5 => Some (SelectProductsPage offset fetch, s5)
                  end
              end
          end
      end
  end.

(** One statement at the head of a text, and the text after it. *)
Definition parse_statement (s : string) : option (tsql * string) :=
  match strip_prefix "SET NOCOUNT ON" s with
  | Some rest => Some (SetNocountOn, rest)
  | None =>
  match strip_prefix "DECLARE @out nvarchar(max)" s with
  | Some rest => Some (DeclareOut, rest)
  | None =>
  match strip_prefix
          "EXEC [dbo].[get_similar_items] @inputText = ?, @error = @out OUTPUT"
          s with
  | Some rest => Some (ExecSimilarItems, rest)
  | None =>
  match strip_prefix "SELECT @out AS error" s with
  | Some rest => Some (SelectOutAsError, rest)
  | None => parse_products_page s
  end end end end.

(** The statements of a batch; [fuel] bounds their number. *)
Fixpoint parse_batch (fuel : nat) (s : string) : option (list tsql) :=
  match skip_ws s with
  | EmptyString => Some []
  | String c rest =>
      match fuel with
      | O => None
      | S fuel' =>
          match parse_statement (String c rest) with
          | None => None
          | Some (q, after) =>
              match skip_ws after with
              | EmptyString => Some [q]
              | String c' after' =>
                  if Ascii.eqb c' ";"
                  then option_map (cons q) (parse_batch fuel' after')
                  else None
              end
          end
      end
  end.

(** Running the statements of a batch in order.  [declared] and [out] are
    the variable @out, [params] the parameters not yet bound to a marker,
    [acc] the result sets so far.
    - SET NOCOUNT ON and DECLARE give no result.
    - EXEC binds the next parameter to @inputText, runs the procedure of
      the world on it, appends its result sets and stores its OUTPUT value
      in @out; when the procedure fails the batch ends with its error.
    - SELECT @out AS error gives one result set with the column error and
      one row, the value of @out.
    - The listing gives the rows after the first [offset] of the table
      ordered by id, [fetch] of them at most; the server rejects a negative
      OFFSET and a FETCH of less than one row. *)
Fixpoint run_batch (w : world) (stmts : list tsql) (declared : bool)
  (out : value) (params : list string) (acc : list result_set)
  : list result_set * option exn :=
  match stmts with
  | [] =>
      match params with
      | [] => (acc, None)
      | _ :: _ => (acc, Some (QueryError "more parameters than markers"))
      end
  | SetNocountOn :: rest => run_batch w rest declared out params acc
  | DeclareOut :: rest =>
      if declared
      then (acc, Some (QueryError "@out has already been declared"))
      else run_batch w rest true VNone params acc
  | ExecSimilarItems :: rest =>
      if declared then
        match params with
        | [] => (acc, Some (QueryError "fewer parameters than markers"))
        | input_text :: params' =>
            match get_similar_items w input_text with
            | ProcReturn sets out' =>
                run_batch w rest declared out' params' (acc ++ sets)
            | ProcRaise sets e => (acc ++ sets, Some e)
            end
        end
      else (acc, Some (QueryError "Must declare the scalar variable @out"))
  | SelectOutAsError :: rest =>
      if declared
      then run_batch w rest declared out params (acc ++ [error_result out])
      else (acc, Some (QueryError "Must declare the scalar variable @out"))
  | SelectProductsPage offset fetch :: rest =>
      if (offset <? 0) || (fetch <=? 0)
      then (acc, Some (QueryError "invalid OFFSET or FETCH"))
      else run_batch w rest declared out params
             (acc ++ [ResultSet product_descriptor
                        (map product_row
                           (offset_fetch offset fetch
                              (order_by_id (product_table w))))])
  end.

(** What the server answers to a text with its parameters: the results in
    order, and the error that ends them if there is one. *)
Definition run_sql (w : world) (sql : string) (params : list string)
  : list result_set * option exn :=
  match parse_batch (String.length sql) sql with
  | None => ([], Some (QueryError "Incorrect syntax"))
  | Some stmts => run_batch w stmts false VNone params []
  end.

(** What the server answers to a statement of the service: its answer to
    the text and the parameters of that statement. *)
Definition run_statement (w : world) (q : statement)
  : list result_set * option exn :=
  run_sql w (sql_text q) (sql_params q).

(** ** Handler computations *)

Inductive event : Type :=
| EvConnect (c : nat)
| EvExecute (c : nat) (sql : string) (params : list string)
| EvCursorClose (c : nat)
| EvConnClose (c : nat)
| EvInvoke (messages : list message).

Record state : Type := mkState {
  next_conn : nat;
  log : list event
}.

Definition M (A : Type) : Type := state -> outcome A * state.

Definition ret {A : Type} (a : A) : M A := fun s => (Return a, s).

Definition raise {A : Type} (e : exn) : M A := fun s => (Raise e, s).

Definition bind {A B : Type} (m : M A) (k : A -> M B) : M B :=
  fun s =>
    match m s with
    | (Return a, s') => k a s'
    | (Raise e, s') => (Raise e, s')
    end.

(** A step that only returns or raises. *)
Definition lift {A : Type} (o : outcome A) : M A := fun s => (o, s).

Definition emit (ev : event) : M unit :=
  fun s => (Return tt, mkState (next_conn s) (log s ++ [ev])).

Declare Scope handler_scope.
Delimit Scope handler_scope with handler.
Notation "x <- m ;; k" := (bind m (fun x => k))
  (at level 100, m at next level, right associativity) : handler_scope.
Notation "m ;; k" := (bind m (fun _ => k))
  (at level 100, right associativity) : handler_scope.
Open Scope handler_scope.

(** A cursor: the connection it belongs to, the result it is positioned on,
    the results still to come and the error that ends them. *)
Record cursor : Type := mkCursor {
  cur_conn : nat;
  current : result_set;
  pending : list result_set;
  pending_error : option exn
}.

(** [connection.cursor()] *)
Definition new_cursor (c : nat) : cursor := mkCursor c NoResult [] None.

(** [cursor.execute(sql, params)]: sends the statement; raises when the
    server fails before any result, else positions on the first result. *)
Definition execute (w : world) (cu : cursor) (sql : string)
  (params : list string) : M cursor :=
  emit (EvExecute (cur_conn cu) sql params) ;;
  match run_sql w sql params with
  | ([], Some e) => raise e
  | ([], None) => ret (mkCursor (cur_conn cu) NoResult [] None)
  | (r :: rs, err) => ret (mkCursor (cur_conn cu) r rs err)
  end.

(** [cursor.fetchall()] *)
Definition fetchall (cu : cursor) : list row := rows_of (current cu).

(** [cursor.description] *)
Definition description (cu : cursor) : option (list column_desc) :=
  description_of (current cu).

(** [cursor.nextset()]: moves to the next result and answers whether there
    is one; raises the pending error when the results end with it. *)
Definition nextset (cu : cursor) : M (bool * cursor) :=
  match pending cu with
  | r :: rs => ret (true, mkCursor (cur_conn cu) r rs (pending_error cu))
  | [] =>
      match pending_error cu with
      | Some e => raise e
      | None => ret (false, mkCursor (cur_conn cu) NoResult [] None)
      end
  end.

Definition cursor_close (cu : cursor) : M unit :=
  emit (EvCursorClose (cur_conn cu)).

Definition connection_close (c : nat) : M unit := emit (EvConnClose c).

(** How often connection [c] was closed in a log. *)
Fixpoint closes (c : nat) (l : list event) : nat :=
  match l with
  | [] => O
  | EvConnClose c' :: l' =>
      if Nat.eqb c c' then S (closes c l') else closes c l'
  | _ :: l' => closes c l'
  end.

(** The connections opened in a log. *)
Fixpoint opened (l : list event) : list nat :=
  match l with
  | [] => []
  | EvConnect c :: l' => c :: opened l'
  | _ :: l' => opened l'
  end.

(** ** Request and response models *)

Record ChatRequest : Type := mkChatRequest { message_of : string }.

Record ChatResponse : Type := mkChatResponse {
  user_message : string;
  assistant_response : string;
  products_found : bool
}.

Record ProductSearchResponse : Type := mkProductSearchResponse {
  query_of : string;
  results_of : list mapping
}.

(** The dict that get_products returns. *)
Record ProductsPageResponse : Type := mkProductsPageResponse {
  page_of : Z;
  page_size_of : Z;
  products_of : list mapping
}.

(** ** A reader for plain JSON documents

    An instance of [json.loads]; it is what the examples run on, and the
    results about chat_structured are stated for every [json.loads].  It
    reads null, true, false, integers, strings, arrays and objects as
    Python does: a malformed text raises JSONDecodeError, an integer of
    more than 4300 digits raises ValueError, and of two fields with the
    same key the later value is kept at the earlier place.  String escapes,
    numbers with a fraction or an exponent, NaN and Infinity are outside
    it and answered with [Unsupported]; nesting is not bounded. *)

Inductive read (A : Type) : Type :=
| Got (a : A) (rest : string)
| Malformed
| TooManyDigits
| Outside.
Arguments Got {A} a rest.
Arguments Malformed {A}.
Arguments TooManyDigits {A}.
Arguments Outside {A}.

Definition read_map {A B : Type} (f : A -> B) (r : read A) : read B :=
  match r with
  | Got a rest => Got (f a) rest
  | Malformed => Malformed
  | TooManyDigits => TooManyDigits
  | Outside => Outside
  end.

(** Whether a fraction or an exponent follows an integer literal. *)
Definition float_follows (s : string) : bool :=
  match s with
  | String c rest =>
      if Ascii.eqb c "." then starts_with_digit rest
      else if Ascii.eqb c "e" || Ascii.eqb c "E" then
        match rest with
        | String c' rest' =>
            if Ascii.eqb c' "+" || Ascii.eqb c' "-"
            then starts_with_digit rest'
            else starts_with_digit rest
        | EmptyString => false
        end
      else false
  | EmptyString => false
  end.

(** An unsigned JSON integer: one digit at least, and after a leading zero
    the literal ends. *)
Definition read_nat (s : string) : read Z :=
  match s with
  | String c rest =>
      if Ascii.eqb c "0" then
        if float_follows rest then Outside else Got 0 rest
      else
        match read_uint s with
        | (Nil, _) => Malformed
        | (u, rest') =>
            if float_follows rest' then Outside
            else if (4300 <? Decimal.nb_digits u)%nat then TooManyDigits
            else Got (Z.of_int (Pos u)) rest'
        end
  | EmptyString => Malformed
  end.

(** The characters of a string literal up to its closing quote. *)
Fixpoint read_string (s : string) : read string :=
  match s with
  | EmptyString => Malformed
  | String c rest =>
      if Ascii.eqb c "034"%char then Got EmptyString rest
      else if Ascii.eqb c "\"%char then Outside
      else if (nat_of_ascii c <? 32)%nat then Malformed
      else read_map (String c) (read_string rest)
  end.

Definition expect {A : Type} (word : string) (a : A) (s : string) : read A :=
  match strip_prefix word s with
  | Some rest => Got a rest
  | None => Malformed
  end.

(** Assignment to a key of an object under construction. *)
Fixpoint json_set (k : string) (v : json) (fields : list (string * json))
  : list (string * json) :=
  match fields with
  | [] => [(k, v)]
  | (k', v') :: fields' =>
      if String.eqb k k' then (k', v) :: fields'
      else (k', v') :: json_set k v fields'
  end.

Fixpoint read_value (fuel : nat) (s : string) : read json :=
  match fuel with
  | O => Outside
  | S fuel' =>
      match skip_ws s with
      | EmptyString => Malformed
      | String c rest =>
          if Ascii.eqb c "n" then expect "ull" JNull rest
          else if Ascii.eqb c "t" then expect "rue" (JBool true) rest
          else if Ascii.eqb c "f" then expect "alse" (JBool false) rest
          else if Ascii.eqb c "N" then
            match strip_prefix "aN" rest with
            | Some _ => Outside
            | None => Malformed
            end
          else if Ascii.eqb c "I" then
            match strip_prefix "nfinity" rest with
            | Some _ => Outside
            | None => Malformed
            end
          else if Ascii.eqb c "034" then read_map JStr (read_string rest)
          else if Ascii.eqb c "-" then
            match strip_prefix "Infinity" rest with
            | Some _ => Outside
            | None => read_map (fun z => JNum (- z)) (read_nat rest)
            end
          else if Ascii.eqb c "[" then
            match skip_ws rest with
            | String "]" rest' => Got (JArr []) rest'
            | _ => read_map JArr (read_items fuel' rest)
            end
          else if Ascii.eqb c "{" then
            match skip_ws rest with
            | String "}" rest' => Got (JObj []) rest'
            | _ => read_map JObj (read_fields fuel' [] rest)
            end
          else read_map JNum (read_nat (String c rest))
      end
  end

with read_items (fuel : nat) (s : string) : read (list json) :=
  match fuel with
  | O => Outside
  | S fuel' =>
      match read_value fuel' s with
      | Got v rest =>
          match skip_ws rest with
          | String "," rest' => read_map (cons v) (read_items fuel' rest')
          | String "]" rest' => Got [v] rest'
          | _ => Malformed
          end
      | Malformed => Malformed
      | TooManyDigits => TooManyDigits
      | Outside => Outside
      end
  end

with read_fields (fuel : nat) (acc : list (string * json)) (s : string)
  : read (list (string * json)) :=
  match fuel with
  | O => Outside
  | S fuel' =>
      match skip_ws s with
      | String "034" rest =>
          match read_string rest with
          | Got key rest1 =>
              match skip_ws rest1 with
              | String ":" rest2 =>
                  match read_value fuel' rest2 with
                  | Got v rest3 =>
                      match skip_ws rest3 with
                      | String "," rest4 =>
                          read_fields fuel' (json_set key v acc) rest4
                      | String "}" rest4 => Got (json_set key v acc) rest4
                      | _ => Malformed
                      end
                  | Malformed => Malformed
                  | TooManyDigits => TooManyDigits
                  | Outside => Outside
                  end
              | _ => Malformed
              end
          | Malformed => Malformed
          | TooManyDigits => TooManyDigits
          | Outside => Outside
          end
      | _ => Malformed
      end
  end.

Definition json_loads_plain (s : string) : outcome json :=
  match read_value (S (2 * String.length s)) s with
  | Got v rest =>
      match skip_ws rest with
      | EmptyString => Return v
      | _ => Raise (JSONDecodeError "Extra data")
      end
  | Malformed => Raise (JSONDecodeError "Expecting value")
  | TooManyDigits =>
      Raise (ValueError
               "Exceeds the limit (4300 digits) for integer string conversion")
  | Outside => Raise (Unsupported "outside the plain reader")
  end.

(** The calls a handler added to the log of the state it started from. *)
Definition added {A : Type} (m : M A) (s : state) : list event :=
  skipn (List.length (log s)) (log (snd (m s))).

Definition finished {A : Type} (o : outcome A) : bool :=
  match o with
  | Return _ => true
  | Raise _ => false
  end.

(** ** The handlers *)

Section Handlers.

Variable repr_value : value -> string.
Variable json_loads : string -> outcome json.
Variable w : world.

(** [get_connection()]: a new connection, or the driver's error. *)
Definition get_connection : M nat :=
  fun s =>
    match connect_error w with
    | Some e => (Raise e, s)
    | None =>
        (Return (next_conn s),
         mkState (S (next_conn s)) (log s ++ [EvConnect (next_conn s)]))
    end.

(** [chat_model.invoke(messages)] *)
Definition invoke (messages : list message) : M string :=
  fun s =>
    (chat_model_invoke w messages,
     mkState (next_conn s) (log s ++ [EvInvoke messages])).

(** [str(results)] for a list of fetched rows; a Row prints as the tuple
    of its values, without column names. *)
Definition repr_row (r : row) : string := repr_tuple (map repr_value r).

Definition str_rows (results : list row) : string :=
  str_list (map repr_row results).

(** [str] of a list of dicts, the text a list of mappings would have. *)
Definition repr_mapping (m : mapping) : string :=
  repr_dict (map (fun kv => (repr_value (VStr (fst kv)), repr_value (snd kv))) m).

Definition str_mappings (results : list mapping) : string :=
  str_list (map repr_mapping results).

(** The loop of find_products (lines 82-86); [fuel] bounds its rounds. *)
Fixpoint find_products_loop (fuel : nat) (cu : cursor) (results : list row)
  : M (list row) :=
  match fuel with
  | O => raise OutOfFuel
  | S fuel' =>
      let rows := fetchall cu in
      let results := results ++ rows in
      more <- nextset cu ;;
      if fst more then find_products_loop fuel' (snd more) results
      else ret results
  end.

(** find_products up to its last line: the accumulated [results]. *)
Definition find_products_results (search_term : string) : M (list row) :=
  connection <- get_connection ;;
  let cursor := new_cursor connection in
  let sql := similar_items_sql in
  cursor <- execute w cursor sql [search_term] ;;
  results <- find_products_loop (S (List.length (pending cursor))) cursor [] ;;
  cursor_close cursor ;;
  connection_close connection ;;
  ret results.

Definition find_products (search_term : string) : M string :=
  results <- find_products_results search_term ;;
  ret (str_rows results).

(** [health_check()] *)
Definition health_check : M (list (string * string)) :=
  ret [("status", "healthy"); ("service", "SQL AI API")].

(** [get_products(page, page_size)] *)
Definition get_products (page page_size : Z) : M ProductsPageResponse :=
  connection <- get_connection ;;
  let cursor := new_cursor connection in
  let offset := (page - 1) * page_size in
  query <- lift (format_products_query offset page_size) ;;
  cursor <- execute w cursor query [] ;;
  columns <- match description cursor with
             | Some d => ret (map fst d)
             | None => raise (TypeError "'NoneType' object is not iterable")
             end ;;
  let products := map (fun row => dict (zip columns row)) (fetchall cursor) in
  cursor_close cursor ;;
  connection_close connection ;;
  ret (mkProductsPageResponse page page_size products).

(** GET /api/products: the query parameters with their defaults. *)
Definition get_products_endpoint (page page_size : option Z)
  : M ProductsPageResponse :=
  get_products (match page with Some p => p | None => 1 end)
               (match page_size with Some n => n | None => 10 end).

(** [if cursor.description:] None and the empty list are false. *)
Definition has_description (cu : cursor) : bool :=
  match description cu with
  | Some (_ :: _) => true
  | _ => false
  end.

(** The loop of search_products (lines 141-147). *)
Fixpoint search_products_loop (fuel : nat) (cu : cursor)
  (results : list mapping) : M (list mapping) :=
  match fuel with
  | O => raise OutOfFuel
  | S fuel' =>
      let rows := fetchall cu in
      let results :=
        if has_description cu then
          let columns :=
            match description cu with
            | Some d => map fst d
            | None => []
            end in
          results ++ map (fun row => dict (zip columns row)) rows
        else results in
      more <- nextset cu ;;
      if fst more then search_products_loop fuel' (snd more) results
      else ret results
  end.

(** [search_products(query)] *)
Definition search_products (query : string) : M ProductSearchResponse :=
  connection <- get_connection ;;
  let cursor := new_cursor connection in
  let sql := similar_items_sql in
  cursor <- execute w cursor sql [query] ;;
  results <- search_products_loop (S (List.length (pending cursor))) cursor [] ;;
  cursor_close cursor ;;
  connection_close connection ;;
  ret (mkProductSearchResponse query results).

(** The system prompt of chat. *)
Definition chat_system_prompt (product_results : string) : string :=
  ("You are a helpful product assistant. Use the following product catalog data to answer user questions." ++ nl
   ++ "Be concise and helpful. Only recommend products from the provided data." ++ nl
   ++ nl
   ++ "Available Products:" ++ nl
   ++ product_results ++ nl
   ++ nl
   ++ "If no relevant products are found, politely inform the user.")%string.

(** [bool(product_results and product_results != "[]")] *)
Definition found_flag (product_results : string) : bool :=
  if truthy product_results
  then negb (String.eqb product_results "[]")
  else false.

(** [chat(request)] *)
Definition chat (request : ChatRequest) : M ChatResponse :=
  product_results <- find_products (message_of request) ;;
  let system_prompt := chat_system_prompt product_results in
  let messages :=
    [SystemMessage system_prompt; HumanMessage (message_of request)] in
  response <- invoke messages ;;
  ret (mkChatResponse (message_of request) response
                      (found_flag product_results)).

(** The system prompt of chat_structured. *)
Definition structured_system_prompt (product_results : string) : string :=
  ("You are a product recommendation assistant. Analyze the user's request and the available products." ++ nl
   ++ "Return a JSON response with the following structure:" ++ nl
   ++ "{" ++ nl
   ++ "    " ++ dq ++ "recommendations" ++ dq ++ ": [" ++ nl
   ++ "        {" ++ nl
   ++ "            " ++ dq ++ "productName" ++ dq ++ ": " ++ dq ++ "string" ++ dq ++ "," ++ nl
   ++ "            " ++ dq ++ "reason" ++ dq ++ ": " ++ dq ++ "string" ++ dq ++ "," ++ nl
   ++ "            " ++ dq ++ "confidence" ++ dq ++ ": " ++ dq ++ "high|medium|low" ++ dq ++ nl
   ++ "        }" ++ nl
   ++ "    ]," ++ nl
   ++ "    " ++ dq ++ "summary" ++ dq ++ ": " ++ dq ++ "Brief summary of recommendations" ++ dq ++ nl
   ++ "}" ++ nl
   ++ nl
   ++ "Available Products:" ++ nl
   ++ product_results)%string.

(** [chat_structured(request)]: the try/except catches JSONDecodeError
    only; any other exception of [json.loads] leaves the handler. *)
Definition chat_structured (request : ChatRequest) : M json :=
  product_results <- find_products (message_of request) ;;
  let system_prompt := structured_system_prompt product_results in
  let messages :=
    [SystemMessage system_prompt; HumanMessage (message_of request)] in
  response <- invoke messages ;;
  match json_loads response with
  | Return parsed => ret parsed
  | Raise (JSONDecodeError _) => ret (JObj [("raw_response", JStr response)])
  | Raise e => raise e
  end.

(** Running a handler from a state: its outcome and the calls it added. *)
Definition outcome_of {A : Type} (m : M A) (s : state) : outcome A :=
  fst (m s).

Definition log_of {A : Type} (m : M A) (s : state) : list event :=
  log (snd (m s)).

End Handlers.

(** ** Worlds for the examples *)

Definition init : state := mkState 0 [].

Definition sample_table : list product :=
  [ mkProduct 3 (VStr "c3") (VStr "Lamp") (VStr "Home") (VInt 30) (VInt 25);
    mkProduct 1 (VStr "a1") (VStr "Kettle") (VStr "Kitchen") (VInt 20) (VInt 18);
    mkProduct 2 (VStr "b2") (VStr "Desk") (VStr "Office") (VInt 90) (VInt 80) ].

(** A procedure that finds nothing: one result set with no rows, and no
    error text. *)
Definition no_match_proc (_ : string) : proc_outcome :=
  ProcReturn [ResultSet [("id", "int"); ("product_name", "nvarchar")] []]
             VNone.

(** A procedure that finds one product. *)
Definition one_match_proc (_ : string) : proc_outcome :=
  ProcReturn [ResultSet [("id", "int"); ("product_name", "nvarchar")]
                        [[VInt 1; VStr "Kettle"]]]
             VNone.

(** A procedure that fails before it emits anything. *)
Definition failing_proc (_ : string) : proc_outcome :=
  ProcRaise [] (QueryError "get_similar_items failed").

Definition echo_model (messages : list message) : outcome string :=
  Return "I don't know".

Definition json_model (messages : list message) : outcome string :=
  Return ("{" ++ dq ++ "recommendations" ++ dq ++ ":[]," ++ dq ++ "summary"
              ++ dq ++ ":" ++ dq ++ "No matches" ++ dq ++ "}")%string.

Definition no_match_world : world :=
  mkWorld None sample_table no_match_proc echo_model.

Definition one_match_world : world :=
  mkWorld None sample_table one_match_proc json_model.

Definition failing_world : world :=
  mkWorld None sample_table failing_proc echo_model.

Definition unreachable_world : world :=
  mkWorld (Some (ConnectionError "server unreachable")) []
          failing_proc (fun _ => Raise (ChatModelError "model unreachable")).

(** ** The search output as the specification words it

    Every row of every result set, in order, as a mapping keyed by the
    columns of its own result set; a result without columns gives nothing. *)

Definition mappings_of (r : result_set) : list mapping :=
  match r with
  | ResultSet (c :: d) rows =>
      map (fun row => dict (zip (map fst (c :: d)) row)) rows
  | _ => []
  end.

Definition concatenated_mappings (sets : list result_set) : list mapping :=
  List.concat (map mappings_of sets).

Definition concatenated_rows (sets : list result_set) : list row :=
  List.concat (map rows_of sets).

(** A listed product as the mapping the listing returns for it. *)
Definition product_mapping (p : product) : mapping :=
  [("id", VInt (p_id p)); ("item_id", p_item_id p);
   ("product_name", p_product_name p);
   ("product_category", p_product_category p);
   ("price_retail", p_price_retail p);
   ("price_current", p_price_current p)].

(** The id of a returned mapping. *)
Definition mapping_id (m : mapping) : Z :=
  match dict_get "id" m with
  | Some (VInt z) => z
  | _ => 0
  end.

(** The database-touching handlers, with their results forgotten. *)
Inductive db_handler : Type :=
| ListProducts (page page_size : Z)
| SearchProducts (query : string)
| FindProducts (search_term : string).

Definition forget {A : Type} (m : M A) : M unit :=
  bind m (fun _ => ret tt).

Definition run_db_handler (repr_value : value -> string) (w : world)
  (h : db_handler) : M unit :=
  match h with
  | ListProducts page page_size => forget (get_products w page page_size)
  | SearchProducts query => forget (search_products w query)
  | FindProducts search_term => forget (find_products repr_value w search_term)
  end.

(** Ordered by id, on table rows and on returned mappings. *)
Definition by_id (p q : product) : Prop := p_id p <= p_id q.

Definition by_mapping_id (m m' : mapping) : Prop :=
  mapping_id m <= mapping_id m'.

(** Every connection opened in the log is closed exactly once in it. *)
Definition closes_each_once (l : list event) : Prop :=
  forall c, In c (opened l) -> closes c l = 1%nat.

(** ** The routes

    The five decorated handlers as one dispatch: a request names its route
    and carries the query parameters or the body. *)

Inductive request : Type :=
| GetRoot
| GetProducts (page page_size : option Z)
| GetProductsSearch (query : string)
| PostChat (body : ChatRequest)
| PostChatStructured (body : ChatRequest).

Inductive response : Type :=
| HealthPayload (payload : list (string * string))
| ProductsPayload (payload : ProductsPageResponse)
| SearchPayload (payload : ProductSearchResponse)
| ChatPayload (payload : ChatResponse)
| JsonPayload (payload : json).

(** Method and path of a route. *)
Definition route (req : request) : string * string :=
  match req with
  | GetRoot => ("GET", "/")
  | GetProducts _ _ => ("GET", "/api/products")
  | GetProductsSearch _ => ("GET", "/api/products/search")
  | PostChat _ => ("POST", "/api/chat")
  | PostChatStructured _ => ("POST", "/api/chat/structured")
  end.

Definition serve (repr_value : value -> string)
  (json_loads : string -> outcome json) (w : world) (req : request)
  : M response :=
  match req with
  | GetRoot =>
      payload <- health_check ;; ret (HealthPayload payload)
  | GetProducts page page_size =>
      payload <- get_products_endpoint w page page_size ;;
      ret (ProductsPayload payload)
  | GetProductsSearch query =>
      payload <- search_products w query ;; ret (SearchPayload payload)
  | PostChat body =>
      payload <- chat repr_value w body ;; ret (ChatPayload payload)
  | PostChatStructured body =>
      payload <- chat_structured repr_value json_loads w body ;;
      ret (JsonPayload payload)
  end.

(** How often the chat model was called in a log. *)
Fixpoint invocations (l : list event) : nat :=
  match l with
  | [] => O
  | EvInvoke _ :: l' => S (invocations l')
  | _ :: l' => invocations l'
  end.

(** The statements sent in a log, each with its parameters. *)
Fixpoint executes (l : list event) : list (string * list string) :=
  match l with
  | [] => []
  | EvExecute _ sql params :: l' => (sql, params) :: executes l'
  | _ :: l' => executes l'
  end.

(** The messages chat and chat_structured send for a search text. *)
Definition chat_messages (prompt : string -> string)
  (product_results user_message : string) : list message :=
  [SystemMessage (prompt product_results); HumanMessage user_message].

(** A result that has rows has columns. *)
Definition rows_have_columns (r : result_set) : Prop :=
  forall rows, r = ResultSet [] rows -> rows = [].

(** A procedure whose result set names a column twice. *)
Definition duplicate_column_proc (_ : string) : proc_outcome :=
  ProcReturn [ResultSet [("name", "nvarchar"); ("name", "nvarchar")]
                        [[VStr "first"; VStr "second"]]]
             VNone.

Definition duplicate_column_world : world :=
  mkWorld None sample_table duplicate_column_proc echo_model.

(** The search text of a request on the search and chat routes. *)
Definition search_term_of (req : request) : option string :=
  match req with
  | GetProductsSearch query => Some query
  | PostChat body => Some (message_of body)
  | PostChatStructured body => Some (message_of body)
  | _ => None
  end.

(** The batch of the search without its last statement, to compare with. *)
Definition similar_items_sql_without_select : string :=
  ("SET NOCOUNT ON;" ++ nl
      ++ "    DECLARE @out nvarchar(max);" ++ nl
      ++ "    EXEC [dbo].[get_similar_items] @inputText = ?, @error = @out OUTPUT;")%string.

(** The same rows, in whatever order the table holds them. *)
Definition same_rows (w w' : world) : Prop :=
  Permutation (product_table w) (product_table w').

(** A table that holds the same row twice. *)
Definition twin : product :=
  mkProduct 7 (VStr "t7") (VStr "Mug") (VStr "Kitchen") (VInt 5) (VInt 4).

Definition twin_world : world :=
  mkWorld None [twin; twin] no_match_proc echo_model.

(** The sample table held in another order. *)
Definition shuffled_world : world :=
  mkWorld None (rev sample_table) no_match_proc echo_model.

(** An integer of 4300 digits, the longest that Python prints. *)
Definition longest_int : Z := Eval vm_compute in 10 ^ 4299.

(** A text of [n] digits. *)
Fixpoint digits_text (n : nat) : string :=
  match n with
  | O => EmptyString
  | S n' => String "1" (digits_text n')
  end.

(** A chat model that answers with an integer of 4301 digits. *)
Definition long_number_world : world :=
  mkWorld None sample_table one_match_proc
          (fun _ => Return (digits_text 4301)).

(** A world whose database answers and whose chat model does not. *)
Definition silent_model_world : world :=
  mkWorld None sample_table one_match_proc
          (fun _ => Raise (ChatModelError "model unreachable")).

(** A [json.loads] that fails with an error other than JSONDecodeError. *)
Definition json_loads_type_error (_ : string) : outcome json :=
  Raise (TypeError "the JSON object must be str, bytes or bytearray").

(** ** Lists, logs and text *)

Lemma skipn_length_app {A : Type} (l l' : list A) :
  skipn (List.length l) (l ++ l') = l'.
Proof.
  induction l as [| a l IH]; simpl; [reflexivity | exact IH].
Qed.

Lemma firstn_then_firstn_skipn {A : Type} (n m : nat) (l : list A) :
  firstn n l ++ firstn m (skipn n l) = firstn (n + m) l.
Proof.
  revert l; induction n as [| n IH]; intros l; simpl.
  - reflexivity.
  - destruct l as [| a l]; simpl.
    + now rewrite firstn_nil.
    + now rewrite IH.
Qed.

Lemma NoDup_app_disjoint {A : Type} (l1 l2 : list A) (x : A) :
  NoDup (l1 ++ l2) -> In x l1 -> In x l2 -> False.
Proof.
  induction l1 as [| a l1 IH]; simpl; intros Hnd H1 H2.
  - exact H1.
  - inversion Hnd as [| ? ? Hnotin Hnd']; subst.
    destruct H1 as [-> | H1].
    + apply Hnotin, in_or_app; now right.
    + now apply IH.
Qed.

Lemma str_list_cons_bracket (x : string) (xs : list string) (c : ascii)
  (rest : string) :
  x = String c rest -> c <> "]"%char -> str_list (x :: xs) <> "[]".
Proof.
  intros -> Hc. unfold str_list.
  destruct xs; simpl; intros H; inversion H; now apply Hc.
Qed.

(** ** The server on the texts of the service *)

Lemma strip_prefix_app (p s : string) :
  strip_prefix p (p ++ s) = Some s.
Proof.
  induction p as [| a p IH]; simpl; [reflexivity |].
  now rewrite Ascii.eqb_refl.
Qed.

Lemma read_uint_printed (d : uint) (rest : string) :
  starts_with_digit rest = false ->
  read_uint (NilEmpty.string_of_uint d ++ rest) = (d, rest).
Proof.
  intros Hrest. induction d; simpl; try (rewrite IHd; reflexivity).
  destruct rest as [| c rest]; simpl in *; [reflexivity |].
  now destruct (digit_of_char c).
Qed.

Lemma read_uint_nonnil (d : uint) (rest : string) :
  d <> Nil ->
  starts_with_digit rest = false ->
  read_uint (NilZero.string_of_uint d ++ rest) = (d, rest).
Proof.
  intros Hd Hrest. unfold NilZero.string_of_uint.
  destruct d; try (now elim Hd); now apply read_uint_printed.
Qed.

Lemma read_int_printed (d : uint) (rest : string) :
  d <> Nil ->
  starts_with_digit rest = false ->
  read_int (NilZero.string_of_uint d ++ rest) = Some (Z.of_int (Pos d), rest)
  /\ read_int (String "-" (NilZero.string_of_uint d) ++ rest)
     = Some (Z.of_int (Neg d), rest).
Proof.
  intros Hd Hrest.
  pose proof (read_uint_nonnil d rest Hd Hrest) as Hread.
  split.
  - destruct d; try (now elim Hd); unfold NilZero.string_of_uint in *;
      cbn [NilEmpty.string_of_uint append] in *;
      unfold read_int; cbn [Ascii.eqb Bool.eqb]; now rewrite Hread.
  - unfold read_int. cbn [append Ascii.eqb Bool.eqb]. rewrite Hread.
    now destruct d; try (now elim Hd).
Qed.

(** Reading back a printed integer gives the integer. *)
Lemma read_int_str_int (z : Z) (rest : string) :
  starts_with_digit rest = false ->
  read_int (str_int z ++ rest) = Some (z, rest).
Proof.
  intros Hrest. rewrite <- (DecimalZ.of_to z) at 2.
  unfold str_int. destruct z as [| p | p]; simpl Z.to_int;
    unfold NilZero.string_of_int.
  - apply (read_int_printed Decimal.zero rest); [discriminate | exact Hrest].
  - apply (read_int_printed _ rest (DecimalPos.Unsigned.to_uint_nonnil p) Hrest).
  - apply (read_int_printed _ rest (DecimalPos.Unsigned.to_uint_nonnil p) Hrest).
Qed.

(** The server reads the listing as the handler writes it. *)
Lemma products_query_parsed (offset page_size : Z) (fuel : nat) :
  parse_batch (S fuel) (products_query offset page_size)
  = Some [SelectProductsPage offset page_size].
Proof.
  assert (Hstmt : forall tail,
             parse_statement
               (select_products_head ++ str_int offset ++ " ROWS FETCH NEXT "
                  ++ str_int page_size ++ " ROWS ONLY" ++ tail)
             = Some (SelectProductsPage offset page_size, tail)).
  { intros tail. unfold parse_statement.
    change (strip_prefix "SET NOCOUNT ON" (select_products_head ++ _))
      with (@None string).
    change (strip_prefix "DECLARE @out nvarchar(max)"
              (select_products_head ++ _)) with (@None string).
    change (strip_prefix
              "EXEC [dbo].[get_similar_items] @inputText = ?, @error = @out OUTPUT"
              (select_products_head ++ _)) with (@None string).
    change (strip_prefix "SELECT @out AS error" (select_products_head ++ _))
      with (@None string).
    unfold parse_products_page.
    rewrite strip_prefix_app, read_int_str_int by reflexivity.
    rewrite strip_prefix_app, read_int_str_int by reflexivity.
    now rewrite strip_prefix_app. }
  change (products_query offset page_size)
    with (nl ++ "        "
             ++ (select_products_head ++ str_int offset ++ " ROWS FETCH NEXT "
                   ++ str_int page_size ++ " ROWS ONLY" ++ nl ++ "    "))%string.
  cbn [parse_batch].
  change (skip_ws (nl ++ "        " ++ ?x)) with (skip_ws x).
  assert (Hhead : exists t,
             (select_products_head ++ str_int offset ++ " ROWS FETCH NEXT "
                ++ str_int page_size ++ " ROWS ONLY" ++ nl ++ "    ")%string
             = String "S" t)
    by (eexists; reflexivity).
  destruct Hhead as [t Ht]. rewrite Ht.
  cbn [skip_ws is_ws Ascii.eqb Bool.eqb orb].
  rewrite <- Ht, Hstmt. reflexivity.
Qed.

Lemma products_query_length (offset page_size : Z) :
  exists fuel, String.length (products_query offset page_size) = S fuel.
Proof.
  eexists. reflexivity.
Qed.

(** The server reads the batch of the search as four statements. *)
Lemma similar_items_sql_parsed :
  parse_batch (String.length similar_items_sql) similar_items_sql
  = Some [SetNocountOn; DeclareOut; ExecSimilarItems; SelectOutAsError].
Proof.
  vm_compute. reflexivity.
Qed.

(** What the server answers to the listing. *)
Lemma run_statement_products (w : world) (offset page_size : Z) :
  run_statement w (ProductsPage offset page_size)
  = if (offset <? 0) || (page_size <=? 0)
    then ([], Some (QueryError "invalid OFFSET or FETCH"))
    else ([ResultSet product_descriptor
             (map product_row
                (offset_fetch offset page_size
                   (order_by_id (product_table w))))], None).
Proof.
  unfold run_statement, run_sql, sql_text, sql_params.
  destruct (products_query_length offset page_size) as [fuel ->].
  rewrite products_query_parsed. simpl.
  now destruct ((offset <? 0) || (page_size <=? 0)).
Qed.

(** What the server answers to the batch of the search. *)
Lemma run_statement_similar (w : world) (term : string) :
  run_statement w (SimilarItems term)
  = match get_similar_items w term with
    | ProcReturn sets out => (sets ++ [error_result out], None)
    | ProcRaise sets e => (sets, Some e)
    end.
Proof.
  unfold run_statement, run_sql, sql_text, sql_params.
  rewrite similar_items_sql_parsed. simpl.
  now destruct (get_similar_items w term).
Qed.

Lemma format_products_query_run (offset page_size : Z) :
  format_products_query offset page_size
  = if (Z.abs offset <? int_str_bound) && (Z.abs page_size <? int_str_bound)
    then Return (products_query offset page_size)
    else Raise (ValueError
                  "Exceeds the limit (4300 digits) for integer string conversion").
Proof.
  unfold format_products_query, format_int.
  destruct (Z.abs offset <? int_str_bound); [| reflexivity].
  now destruct (Z.abs page_size <? int_str_bound).
Qed.


Section Runs.

Variable repr_value : value -> string.
Variable json_loads : string -> outcome json.
Variable w : world.

Lemma str_rows_nonempty (r : row) (rs : list row) :
  str_rows repr_value (r :: rs) <> "[]".
Proof.
  unfold str_rows. simpl.
  apply (str_list_cons_bracket _ _ "("%char
           (String.concat ", " (map repr_value r)
              ++ (if Nat.eqb (List.length (map repr_value r)) 1
                  then "," else "") ++ ")")%string).
  - reflexivity.
  - discriminate.
Qed.

Lemma str_rows_app_nonempty (rs : list row) (r : row) :
  str_rows repr_value (rs ++ [r]) <> "[]".
Proof.
  destruct rs; simpl; apply str_rows_nonempty.
Qed.

(** The text of a list of rows is never the text of a list of mappings. *)
Lemma str_rows_differs_from_mappings (r : row) (rs : list row)
  (ms : list mapping) :
  str_rows repr_value (r :: rs) <> str_mappings repr_value ms.
Proof.
  unfold str_rows, str_mappings, str_list. simpl.
  destruct ms as [| m ms]; simpl.
  - destruct rs; simpl; discriminate.
  - destruct rs, ms; simpl; discriminate.
Qed.

(** The loops stop after one round per result and add nothing to the log. *)
Lemma find_products_loop_run (pend : list result_set) :
  forall (cur : result_set) (conn : nat) (err : option exn) (fuel : nat)
         (acc : list row) (s : state),
    (List.length pend < fuel)%nat ->
    find_products_loop fuel (mkCursor conn cur pend err) acc s
    = (match err with
       | None => Return (acc ++ concatenated_rows (cur :: pend))
       | Some e => Raise e
       end, s).
Proof.
  induction pend as [| r pend IH]; intros cur conn err fuel acc s Hfuel;
    (destruct fuel as [| fuel]; [simpl in Hfuel; lia |]);
    simpl; unfold bind, nextset, fetchall; simpl.
  - destruct err; unfold raise, ret; simpl; [reflexivity |].
    unfold concatenated_rows; simpl. now rewrite app_nil_r.
  - rewrite IH by (simpl in Hfuel; lia).
    destruct err; [reflexivity |].
    unfold concatenated_rows; simpl. now rewrite <- app_assoc.
Qed.

Lemma search_products_loop_run (pend : list result_set) :
  forall (cur : result_set) (conn : nat) (err : option exn) (fuel : nat)
         (acc : list mapping) (s : state),
    (List.length pend < fuel)%nat ->
    search_products_loop fuel (mkCursor conn cur pend err) acc s
    = (match err with
       | None => Return (acc ++ concatenated_mappings (cur :: pend))
       | Some e => Raise e
       end, s).
Proof.
  assert (Hstep : forall conn cur pend' err acc,
             (if has_description (mkCursor conn cur pend' err)
              then acc ++ map (fun row =>
                                 dict (zip match description
                                                   (mkCursor conn cur pend' err)
                                           with
                                           | Some d => map fst d
                                           | None => []
                                           end row))
                              (fetchall (mkCursor conn cur pend' err))
              else acc)
             = acc ++ mappings_of cur).
  { intros conn cur pend' err acc.
    unfold has_description, description, fetchall; simpl.
    destruct cur as [| [| c d] rows]; simpl;
      try (now rewrite app_nil_r); reflexivity. }
  induction pend as [| r pend IH]; intros cur conn err fuel acc s Hfuel;
    (destruct fuel as [| fuel]; [simpl in Hfuel; lia |]);
    cbn [search_products_loop]; rewrite Hstep;
    unfold bind, nextset; simpl.
  - destruct err; unfold raise, ret; simpl; [reflexivity |].
    unfold concatenated_mappings; simpl. now rewrite app_nil_r.
  - rewrite IH by (simpl in Hfuel; lia).
    destruct err; [reflexivity |].
    unfold concatenated_mappings; simpl. now rewrite <- app_assoc.
Qed.

#[local] Arguments find_products_loop : simpl never.
#[local] Arguments search_products_loop : simpl never.

Ltac run_steps :=
  unfold bind, get_connection, execute, cursor_close, connection_close,
    emit, raise, ret; simpl.

Lemma connect_failure_find (term : string) (s : state) (e : exn) :
  connect_error w = Some e ->
  find_products repr_value w term s = (Raise e, s).
Proof.
  intros Hc. unfold find_products, find_products_results. run_steps.
  now rewrite Hc.
Qed.

Lemma connect_failure_search (query : string) (s : state) (e : exn) :
  connect_error w = Some e ->
  search_products w query s = (Raise e, s).
Proof.
  intros Hc. unfold search_products. run_steps. now rewrite Hc.
Qed.

Lemma connect_failure_list (page page_size : Z) (s : state) (e : exn) :
  connect_error w = Some e ->
  get_products w page page_size s = (Raise e, s).
Proof.
  intros Hc. unfold get_products. run_steps. now rewrite Hc.
Qed.

Lemma find_products_results_run (term : string) (s : state) :
  connect_error w = None ->
  find_products_results w term s
  = match run_statement w (SimilarItems term) with
    | (sets, None) =>
        (Return (concatenated_rows sets),
         mkState (S (next_conn s))
           (log s ++ [EvConnect (next_conn s);
                      EvExecute (next_conn s) similar_items_sql [term];
                      EvCursorClose (next_conn s);
                      EvConnClose (next_conn s)]))
    | (sets, Some e) =>
        (Raise e,
         mkState (S (next_conn s))
           (log s ++ [EvConnect (next_conn s);
                      EvExecute (next_conn s) similar_items_sql [term]]))
    end.
Proof.
  intros Hc. unfold find_products_results, bind, get_connection, execute.
  rewrite Hc. unfold bind.
  change (run_sql w similar_items_sql [term])
    with (run_statement w (SimilarItems term)).
  destruct (run_statement w (SimilarItems term)) as [[| r rs] [e |]];
    unfold new_cursor; simpl; unfold bind;
    try rewrite find_products_loop_run by (simpl; lia);
    run_steps; rewrite <- ?app_assoc; reflexivity.
Qed.

Lemma find_products_run (term : string) (s : state) :
  connect_error w = None ->
  find_products repr_value w term s
  = match run_statement w (SimilarItems term) with
    | (sets, None) =>
        (Return (str_rows repr_value (concatenated_rows sets)),
         mkState (S (next_conn s))
           (log s ++ [EvConnect (next_conn s);
                      EvExecute (next_conn s) similar_items_sql [term];
                      EvCursorClose (next_conn s);
                      EvConnClose (next_conn s)]))
    | (sets, Some e) =>
        (Raise e,
         mkState (S (next_conn s))
           (log s ++ [EvConnect (next_conn s);
                      EvExecute (next_conn s) similar_items_sql [term]]))
    end.
Proof.
  intros Hc. unfold find_products, bind.
  rewrite find_products_results_run by exact Hc.
  destruct (run_statement w (SimilarItems term)) as [sets [e |]];
    reflexivity.
Qed.

Lemma search_products_run (query : string) (s : state) :
  connect_error w = None ->
  search_products w query s
  = match run_statement w (SimilarItems query) with
    | (sets, None) =>
        (Return (mkProductSearchResponse query (concatenated_mappings sets)),
         mkState (S (next_conn s))
           (log s ++ [EvConnect (next_conn s);
                      EvExecute (next_conn s) similar_items_sql [query];
                      EvCursorClose (next_conn s);
                      EvConnClose (next_conn s)]))
    | (sets, Some e) =>
        (Raise e,
         mkState (S (next_conn s))
           (log s ++ [EvConnect (next_conn s);
                      EvExecute (next_conn s) similar_items_sql [query]]))
    end.
Proof.
  intros Hc. unfold search_products, bind, get_connection, execute.
  rewrite Hc. unfold bind.
  change (run_sql w similar_items_sql [query])
    with (run_statement w (SimilarItems query)).
  destruct (run_statement w (SimilarItems query)) as [[| r rs] [e |]];
    unfold new_cursor; simpl; unfold bind;
    try rewrite search_products_loop_run by (simpl; lia);
    run_steps; rewrite <- ?app_assoc; reflexivity.
Qed.

Lemma product_rows_as_mappings (l : list product) :
  map (fun row => dict (zip (map fst product_descriptor) row))
      (map product_row l)
  = map product_mapping l.
Proof.
  rewrite map_map. apply map_ext. intros p. reflexivity.
Qed.

Lemma get_products_run (page page_size : Z) (s : state) :
  connect_error w = None ->
  get_products w page page_size s
  = if (Z.abs ((page - 1) * page_size) <? int_str_bound)
       && (Z.abs page_size <? int_str_bound)
    then
      if ((page - 1) * page_size <? 0) || (page_size <=? 0)
      then
        (Raise (QueryError "invalid OFFSET or FETCH"),
         mkState (S (next_conn s))
           (log s ++ [EvConnect (next_conn s);
                      EvExecute (next_conn s)
                        (products_query ((page - 1) * page_size) page_size)
                        []]))
      else
        (Return (mkProductsPageResponse page page_size
                   (map product_mapping
                      (offset_fetch ((page - 1) * page_size) page_size
                         (order_by_id (product_table w))))),
         mkState (S (next_conn s))
           (log s ++ [EvConnect (next_conn s);
                      EvExecute (next_conn s)
                        (products_query ((page - 1) * page_size) page_size)
                        [];
                      EvCursorClose (next_conn s);
                      EvConnClose (next_conn s)]))
    else
      (Raise (ValueError
                "Exceeds the limit (4300 digits) for integer string conversion"),
       mkState (S (next_conn s)) (log s ++ [EvConnect (next_conn s)])).
Proof.
  intros Hc. unfold get_products, bind, get_connection, lift. rewrite Hc.
  rewrite format_products_query_run.
  destruct ((Z.abs ((page - 1) * page_size) <? int_str_bound)
            && (Z.abs page_size <? int_str_bound)); [| reflexivity].
  unfold execute, bind.
  change (run_sql w (products_query ((page - 1) * page_size) page_size) [])
    with (run_statement w (ProductsPage ((page - 1) * page_size) page_size)).
  rewrite run_statement_products.
  destruct (((page - 1) * page_size <? 0) || (page_size <=? 0));
    simpl; unfold bind, description, fetchall; simpl; run_steps;
    rewrite <- ?app_assoc; [reflexivity |].
  now rewrite product_rows_as_mappings.
Qed.

End Runs.

(** ** ORDER BY id *)

Lemma insert_by_id_perm (p : product) (l : list product) :
  Permutation (insert_by_id p l) (p :: l).
Proof.
  induction l as [| q l IH]; simpl.
  - apply Permutation_refl.
  - destruct (p_id p <=? p_id q).
    + apply Permutation_refl.
    + eapply perm_trans; [apply perm_skip, IH | apply perm_swap].
Qed.

Lemma order_by_id_perm (t : list product) :
  Permutation (order_by_id t) t.
Proof.
  induction t as [| p t IH]; simpl.
  - apply perm_nil.
  - eapply perm_trans; [apply insert_by_id_perm | now apply perm_skip].
Qed.

Lemma insert_by_id_sorted (p : product) (l : list product) :
  StronglySorted by_id l -> StronglySorted by_id (insert_by_id p l).
Proof.
  induction l as [| q l IH]; simpl; intros Hl.
  - constructor; constructor.
  - apply StronglySorted_inv in Hl as [Hl Hq].
    destruct (p_id p <=? p_id q) eqn:Hpq.
    + apply Z.leb_le in Hpq.
      constructor; [now constructor |].
      constructor; [exact Hpq |].
      eapply Forall_impl; [| exact Hq].
      intros r Hr. unfold by_id in *. lia.
    + apply Z.leb_gt in Hpq.
      constructor; [now apply IH |].
      eapply Permutation_Forall;
        [apply Permutation_sym, insert_by_id_perm |].
      constructor; [unfold by_id; lia | exact Hq].
Qed.

Lemma order_by_id_sorted (t : list product) :
  StronglySorted by_id (order_by_id t).
Proof.
  induction t as [| p t IH]; simpl.
  - constructor.
  - now apply insert_by_id_sorted.
Qed.

Lemma sorted_app_inv {A : Type} (R : A -> A -> Prop) (l1 l2 : list A) :
  StronglySorted R (l1 ++ l2) -> StronglySorted R l1 /\ StronglySorted R l2.
Proof.
  induction l1 as [| a l1 IH]; simpl; intros H.
  - split; [constructor | exact H].
  - apply StronglySorted_inv in H as [H Ha].
    destruct (IH H) as [H1 H2]. split; [| exact H2].
    constructor; [exact H1 |].
    apply Forall_app in Ha. tauto.
Qed.

Lemma product_mappings_sorted (l : list product) :
  StronglySorted by_id l ->
  StronglySorted by_mapping_id (map product_mapping l).
Proof.
  induction l as [| p l IH]; simpl; intros Hl.
  - constructor.
  - apply StronglySorted_inv in Hl as [Hl Hp].
    constructor; [now apply IH |].
    apply Forall_map. eapply Forall_impl; [| exact Hp].
    intros q Hq. exact Hq.
Qed.

Lemma product_mapping_id (p q : product) :
  product_mapping p = product_mapping q -> p_id p = p_id q.
Proof.
  unfold product_mapping. intros H. now inversion H.
Qed.

Lemma pages_disjoint (n : nat) (t : list product) (m : mapping) :
  NoDup (map p_id t) ->
  In m (map product_mapping (firstn n t)) ->
  In m (map product_mapping (firstn n (skipn n t))) ->
  False.
Proof.
  intros Hnd Ha Hb.
  apply in_map_iff in Ha as [p [Hp Hpa]].
  apply in_map_iff in Hb as [q [Hq Hqb]].
  assert (Hid : p_id p = p_id q)
    by (apply product_mapping_id; congruence).
  rewrite <- (firstn_skipn (n + n) t), <- firstn_then_firstn_skipn in Hnd.
  rewrite !map_app in Hnd. apply NoDup_app_remove_r in Hnd.
  apply (NoDup_app_disjoint _ _ (p_id p) Hnd).
  - now apply in_map.
  - rewrite Hid. now apply in_map.
Qed.

Lemma distinct_ids_tell_rows_apart (l : list product) (p q : product) :
  NoDup (map p_id l) -> In p l -> In q l -> p_id p = p_id q -> p = q.
Proof.
  induction l as [| a l IH]; simpl; intros Hnd Hp Hq Hid; [now elim Hp |].
  inversion Hnd as [| ? ? Hnotin Hnd']; subst.
  destruct Hp as [-> | Hp], Hq as [-> | Hq]; auto.
  - elim Hnotin. rewrite Hid. now apply in_map.
  - elim Hnotin. rewrite <- Hid. now apply in_map.
Qed.

(** With distinct ids there is one arrangement ordered by id. *)
Lemma sorted_by_id_unique (l : list product) :
  forall l',
    NoDup (map p_id l) -> Permutation l l' ->
    StronglySorted by_id l -> StronglySorted by_id l' -> l = l'.
Proof.
  induction l as [| a l IH]; intros l' Hnd Hperm Hl Hl'.
  - now apply Permutation_nil in Hperm.
  - destruct l' as [| b l'];
      [now apply Permutation_sym, Permutation_nil in Hperm |].
    apply StronglySorted_inv in Hl as [Hl Ha].
    apply StronglySorted_inv in Hl' as [Hl' Hb].
    assert (Hab : a = b).
    { assert (Hb_in : In b (a :: l))
        by (eapply Permutation_in;
            [apply Permutation_sym, Hperm | now left]).
      assert (Ha_in : In a (b :: l'))
        by (eapply Permutation_in; [exact Hperm | now left]).
      apply (distinct_ids_tell_rows_apart (a :: l));
        [exact Hnd | now left | exact Hb_in |].
      rewrite Forall_forall in Ha, Hb. unfold by_id in *.
      destruct Hb_in as [-> | Hb_in]; [reflexivity |].
      destruct Ha_in as [-> | Ha_in]; [reflexivity |].
      specialize (Ha b Hb_in). specialize (Hb a Ha_in). lia. }
    subst b. f_equal.
    apply IH; [now inversion Hnd | | exact Hl | exact Hl'].
    now apply Permutation_cons_inv in Hperm.
Qed.

Lemma order_by_id_same_rows (t t' : list product) :
  NoDup (map p_id t) -> Permutation t t' -> order_by_id t = order_by_id t'.
Proof.
  intros Hnd Hperm. apply sorted_by_id_unique.
  - eapply Permutation_NoDup; [| exact Hnd].
    apply Permutation_map, Permutation_sym, order_by_id_perm.
  - eapply perm_trans; [apply order_by_id_perm |].
    eapply perm_trans; [exact Hperm |].
    apply Permutation_sym, order_by_id_perm.
  - apply order_by_id_sorted.
  - apply order_by_id_sorted.
Qed.

Lemma int_str_bound_pos : 0 < int_str_bound.
Proof.
  reflexivity.
Qed.

Lemma within_int_str_bound (z : Z) :
  Z.abs z < int_str_bound -> (Z.abs z <? int_str_bound) = true.
Proof.
  apply Z.ltb_lt.
Qed.

(** The listing when both numbers can be printed and the server accepts
    them. *)
Lemma get_products_page (w : world) (page page_size : Z) (s : state) :
  connect_error w = None ->
  0 <= (page - 1) * page_size < int_str_bound ->
  1 <= page_size < int_str_bound ->
  get_products w page page_size s
  = (Return (mkProductsPageResponse page page_size
               (map product_mapping
                  (offset_fetch ((page - 1) * page_size) page_size
                     (order_by_id (product_table w))))),
     mkState (S (next_conn s))
       (log s ++ [EvConnect (next_conn s);
                  EvExecute (next_conn s)
                    (products_query ((page - 1) * page_size) page_size) [];
                  EvCursorClose (next_conn s);
                  EvConnClose (next_conn s)])).
Proof.
  intros Hc Hoff Hn. rewrite (get_products_run w page page_size s Hc).
  rewrite !within_int_str_bound by (rewrite Z.abs_eq; lia).
  replace (((page - 1) * page_size <? 0) || (page_size <=? 0)) with false;
    [reflexivity |].
  symmetry. apply orb_false_iff.
  split; [apply Z.ltb_ge; lia | apply Z.leb_gt; lia].
Qed.

(** ** What the handlers answer *)

Lemma found_flag_iff (t : string) :
  found_flag t = true <-> t <> "" /\ t <> "[]".
Proof.
  unfold found_flag, truthy.
  destruct (String.eqb_spec t "") as [-> | Hne]; simpl.
  - split; [discriminate | intros [H _]; now elim H].
  - destruct (String.eqb_spec t "[]") as [-> | Hnb]; simpl.
    + split; [discriminate | intros [_ H]; now elim H].
    + now split.
Qed.

Lemma added_after {A : Type} (m : M A) (s : state) (o : outcome A)
  (n : nat) (evs : list event) :
  m s = (o, mkState n (log s ++ evs)) -> added m s = evs.
Proof.
  intros H. unfold added. rewrite H. simpl. apply skipn_length_app.
Qed.

Lemma added_nothing {A : Type} (m : M A) (s : state) (o : outcome A) :
  m s = (o, s) -> added m s = [].
Proof.
  intros H. unfold added. rewrite H. simpl. apply skipn_all.
Qed.

Lemma chat_run (repr_value : value -> string) (w : world)
  (request : ChatRequest) (s : state) :
  connect_error w = None ->
  outcome_of (chat repr_value w request) s
  = match run_statement w (SimilarItems (message_of request)) with
    | (sets, None) =>
        let product_results :=
          str_rows repr_value (concatenated_rows sets) in
        match chat_model_invoke w
                [SystemMessage (chat_system_prompt product_results);
                 HumanMessage (message_of request)] with
        | Return a =>
            Return (mkChatResponse (message_of request) a
                                   (found_flag product_results))
        | Raise e => Raise e
        end
    | (_, Some e) => Raise e
    end.
Proof.
  intros Hc. unfold outcome_of, chat, bind.
  rewrite find_products_run by exact Hc.
  destruct (run_statement w (SimilarItems (message_of request)))
    as [sets [e |]]; [reflexivity |].
  unfold invoke; simpl.
  now destruct (chat_model_invoke w _).
Qed.

Lemma no_rows_no_mappings (sets : list result_set) :
  concatenated_rows sets = [] -> concatenated_mappings sets = [].
Proof.
  unfold concatenated_rows, concatenated_mappings.
  induction sets as [| r sets IH]; simpl; intros H; [reflexivity |].
  apply app_eq_nil in H as [Hr Hs]. rewrite (IH Hs), app_nil_r.
  destruct r as [| [| c d] rows]; simpl in *; try reflexivity.
  now rewrite Hr.
Qed.

Lemma concatenated_mappings_app (l l' : list result_set) :
  concatenated_mappings (l ++ l')
  = concatenated_mappings l ++ concatenated_mappings l'.
Proof.
  unfold concatenated_mappings. now rewrite map_app, concat_app.
Qed.

Lemma concatenated_rows_app (l l' : list result_set) :
  concatenated_rows (l ++ l') = concatenated_rows l ++ concatenated_rows l'.
Proof.
  unfold concatenated_rows. now rewrite map_app, concat_app.
Qed.

(** ** The chat flag (C1) *)

(** C1.  The flag of chat is computed as specified, true iff the
    search text is neither empty nor the text of the empty list.  On a
    catalog with no match for the message the flag is nevertheless true:
    the procedure yields no row, the batch's last SELECT yields the row
    (None,), and the search text is the text of a one-row list. *)
Theorem chat_no_match_reports_found :
  outcome_of (find_products repr_plain no_match_world "zzzznonexistent") init
  = Return "[(None,)]"
  /\ outcome_of (chat repr_plain no_match_world
                   (mkChatRequest "zzzznonexistent")) init
     = Return (mkChatResponse "zzzznonexistent" "I don't know" true).
Proof.
  split; vm_compute; reflexivity.
Qed.

(** ** Closing the connection (C2) *)

(** C2, as stated, fails: when the stored procedure raises, search_products
    leaves with the exception and its connection is never closed. *)
Lemma connection_left_open_on_error :
  outcome_of (run_db_handler repr_plain failing_world (SearchProducts "x"))
             init
  = Raise (QueryError "get_similar_items failed")
  /\ ~ closes_each_once
         (added (run_db_handler repr_plain failing_world (SearchProducts "x"))
                init).
Proof.
  split; [vm_compute; reflexivity |].
  intros H. specialize (H 0%nat). vm_compute in H.
  specialize (H (or_introl eq_refl)). discriminate H.
Qed.

(** C2, amended.  A database-touching handler (listing, search, the chat
    search helper) opens one connection when connecting works, and closes
    it exactly once when the handler returns; when the handler leaves with
    an exception it closes no connection at all. *)
Theorem connection_closed_once_on_return (repr_value : value -> string)
  (w : world) (h : db_handler) (s : state) :
  let l := added (run_db_handler repr_value w h) s in
  opened l = match connect_error w with
             | None => [next_conn s]
             | Some _ => []
             end
  /\ forall c,
       closes c l
       = if finished (outcome_of (run_db_handler repr_value w h) s)
            && Nat.eqb c (next_conn s)
         then 1%nat else 0%nat.
Proof.
  destruct (connect_error w) as [e |] eqn:Hc.
  - assert (Hrun : run_db_handler repr_value w h s = (Raise e, s)).
    { destruct h; unfold run_db_handler, forget, bind;
        [rewrite (connect_failure_list w _ _ s e Hc)
        | rewrite (connect_failure_search w _ s e Hc)
        | rewrite (connect_failure_find repr_value w _ s e Hc)];
        reflexivity. }
    cbv zeta. unfold outcome_of.
    rewrite (added_nothing _ _ _ Hrun), Hrun. simpl. now split.
  - assert (Hrun :
      exists o n sql params,
        (run_db_handler repr_value w h s
         = (o, mkState n
                 (log s ++ [EvConnect (next_conn s);
                            EvExecute (next_conn s) sql params;
                            EvCursorClose (next_conn s);
                            EvConnClose (next_conn s)]))
         /\ finished o = true)
        \/ (run_db_handler repr_value w h s
            = (o, mkState n
                    (log s ++ [EvConnect (next_conn s);
                               EvExecute (next_conn s) sql params]))
            /\ finished o = false)
        \/ (run_db_handler repr_value w h s
            = (o, mkState n (log s ++ [EvConnect (next_conn s)]))
            /\ finished o = false)).
    { destruct h; unfold run_db_handler, forget, bind.
      - rewrite (get_products_run w _ _ s Hc).
        destruct ((Z.abs ((page - 1) * page_size) <? int_str_bound)
                  && (Z.abs page_size <? int_str_bound));
          [destruct (((page - 1) * page_size <? 0) || (page_size <=? 0)) |];
          [do 4 eexists; right; left; split; reflexivity
          | do 4 eexists; left; split; reflexivity
          | do 2 eexists; exists EmptyString, (@nil string);
            right; right; split; reflexivity].
      - rewrite (search_products_run w _ s Hc).
        destruct (run_statement w (SimilarItems query)) as [sets [e |]];
          do 4 eexists; [right; left | left]; split; reflexivity.
      - rewrite (find_products_run repr_value w _ s Hc).
        destruct (run_statement w (SimilarItems search_term))
          as [sets [e |]];
          do 4 eexists; [right; left | left]; split; reflexivity. }
    destruct Hrun
      as (o & n & sql & params
          & [[Hrun Hfin] | [[Hrun Hfin] | [Hrun Hfin]]]);
      cbv zeta; unfold outcome_of;
      rewrite (added_after _ _ _ _ _ Hrun), Hrun; simpl; rewrite Hfin;
      simpl; (split; [reflexivity |]); intros c;
      try destruct (Nat.eqb c (next_conn s)); reflexivity.
Qed.

(** With the server unreachable a handler raises before it opens anything. *)
Example unreachable_server_opens_nothing :
  run_db_handler repr_plain unreachable_world (ListProducts 1 10) init
  = (Raise (ConnectionError "server unreachable"), init)
  /\ health_check init
     = (Return [("status", "healthy"); ("service", "SQL AI API")], init).
Proof.
  split; reflexivity.
Qed.

(** ** The row of the last SELECT (C3) *)

Lemma similar_items_batch (w : world) (term : string)
  (sets : list result_set) (out : value) :
  get_similar_items w term = ProcReturn sets out ->
  run_statement w (SimilarItems term) = (sets ++ [error_result out], None).
Proof.
  intros H. now rewrite run_statement_similar, H.
Qed.

(** What the server answers to the batch cut before its last statement:
    the result sets of the procedure and nothing else. *)
Lemma batch_without_select (w : world) (term : string) :
  run_sql w similar_items_sql_without_select [term]
  = match get_similar_items w term with
    | ProcReturn sets out => (sets, None)
    | ProcRaise sets e => (sets, Some e)
    end.
Proof.
  unfold run_sql.
  assert (Hparsed :
            parse_batch (String.length similar_items_sql_without_select)
                        similar_items_sql_without_select
            = Some [SetNocountOn; DeclareOut; ExecSimilarItems])
    by (vm_compute; reflexivity).
  rewrite Hparsed. simpl. now destruct (get_similar_items w term).
Qed.

(** C3.  Whenever the connection opens and the stored procedure returns,
    the batch that find_products and search_products send ends with
    [SELECT @out AS error], and the server's answer to it is its answer to
    the batch without that statement followed by one result set of one
    row.  Both handlers accumulate that row after the procedure's rows; so
    the text of find_products is not the text of the empty list, the
    results of search_products are not empty, and chat answers with
    products_found true as soon as the model answers. *)
Theorem error_row_always_accumulated (repr_value : value -> string)
  (w : world) (term : string) (sets : list result_set) (out : value)
  (s : state) :
  connect_error w = None ->
  get_similar_items w term = ProcReturn sets out ->
  let batch :=
    ("SET NOCOUNT ON;" ++ nl
        ++ "    DECLARE @out nvarchar(max);" ++ nl
        ++ "    EXEC [dbo].[get_similar_items] @inputText = ?, @error = @out OUTPUT;")%string in
  let text := (batch ++ nl ++ "    SELECT @out AS error;")%string in
  executes (added (find_products_results w term) s) = [(text, [term])]
  /\ executes (added (search_products w term) s) = [(text, [term])]
  /\ run_sql w text [term]
     = (fst (run_sql w batch [term]) ++ [ResultSet [("error", "nvarchar")]
                                                  [[out]]], None)
  /\ fst (run_sql w batch [term]) = sets
  /\ outcome_of (find_products_results w term) s
     = Return (concatenated_rows sets ++ [[out]])
  /\ outcome_of (search_products w term) s
     = Return (mkProductSearchResponse term
                 (concatenated_mappings sets ++ [[("error", out)]]))
  /\ concatenated_mappings sets ++ [[("error", out)]] <> []
  /\ (exists t, outcome_of (find_products repr_value w term) s = Return t
                /\ t <> "[]")
  /\ outcome_of (chat repr_value w (mkChatRequest term)) s
     = match chat_model_invoke w
               [SystemMessage
                  (chat_system_prompt
                     (str_rows repr_value (concatenated_rows sets ++ [[out]])));
                HumanMessage term] with
       | Return a => Return (mkChatResponse term a true)
       | Raise e => Raise e
       end.
Proof.
  intros Hc Hproc batch text.
  change text with similar_items_sql.
  change batch with similar_items_sql_without_select.
  pose proof (similar_items_batch w term sets out Hproc) as Hrun.
  assert (Hrows : concatenated_rows (sets ++ [error_result out])
                  = concatenated_rows sets ++ [[out]])
    by (now rewrite concatenated_rows_app).
  assert (Hmaps : concatenated_mappings (sets ++ [error_result out])
                  = concatenated_mappings sets ++ [[("error", out)]])
    by (now rewrite concatenated_mappings_app).
  split; [| split; [| split; [| split]]].
  - unfold added. rewrite find_products_results_run by exact Hc.
    rewrite Hrun. simpl. now rewrite skipn_length_app.
  - unfold added. rewrite search_products_run by exact Hc.
    rewrite Hrun. simpl. now rewrite skipn_length_app.
  - change (run_sql w similar_items_sql [term])
      with (run_statement w (SimilarItems term)).
    now rewrite Hrun, batch_without_select, Hproc.
  - now rewrite batch_without_select, Hproc.
  - repeat split.
    + unfold outcome_of. rewrite find_products_results_run by exact Hc.
      rewrite Hrun. simpl. now rewrite Hrows.
    + unfold outcome_of. rewrite search_products_run by exact Hc.
      rewrite Hrun. simpl. now rewrite Hmaps.
    + intros H. now apply app_eq_nil in H as [_ H].
    + exists (str_rows repr_value (concatenated_rows sets ++ [[out]])). split.
      * unfold outcome_of. rewrite find_products_run by exact Hc.
        rewrite Hrun. simpl. now rewrite Hrows.
      * apply str_rows_app_nonempty.
    + rewrite chat_run by exact Hc.
      cbn [message_of]. rewrite Hrun. cbv zeta. rewrite Hrows.
      destruct (chat_model_invoke w _); [| reflexivity].
      assert (Hflag : found_flag
                        (str_rows repr_value
                           (concatenated_rows sets ++ [[out]]))
                      = true).
      { apply found_flag_iff. split; [| apply str_rows_app_nonempty].
        unfold str_rows, str_list. discriminate. }
      now rewrite Hflag.
Qed.

Lemma error_row_always_accumulated_witness :
  outcome_of (find_products_results one_match_world "kettle") init
  = Return ([[VInt 1; VStr "Kettle"]] ++ [[VNone]])
  /\ outcome_of (chat repr_plain one_match_world (mkChatRequest "kettle")) init
     = match chat_model_invoke one_match_world
               [SystemMessage
                  (chat_system_prompt
                     (str_rows repr_plain
                        ([[VInt 1; VStr "Kettle"]] ++ [[VNone]])));
                HumanMessage "kettle"] with
       | Return a => Return (mkChatResponse "kettle" a true)
       | Raise e => Raise e
       end.
Proof.
  pose proof (error_row_always_accumulated repr_plain one_match_world
                "kettle"
                [ResultSet [("id", "int"); ("product_name", "nvarchar")]
                           [[VInt 1; VStr "Kettle"]]]
                VNone init eq_refl eq_refl) as H.
  cbv zeta in H.
  destruct H as (_ & _ & _ & _ & Hfind & _ & _ & _ & Hchat).
  split; [exact Hfind | exact Hchat].
Defined.

(** ** Concatenating the result sets (C4) *)

(** C4, as stated, fails for the text form: find_products keeps the raw
    rows and returns their text, which names no column, while the text of
    the mappings of the same result sets does. *)
Lemma find_products_text_has_no_columns :
  outcome_of (find_products repr_plain one_match_world "kettle") init
  = Return "[(1, 'Kettle'), (None,)]"
  /\ str_mappings repr_plain
       (concatenated_mappings
          (fst (run_statement one_match_world (SimilarItems "kettle"))))
     = "[{'id': 1, 'product_name': 'Kettle'}, {'error': None}]"
  /\ outcome_of (find_products repr_plain one_match_world "kettle") init
     <> Return (str_mappings repr_plain
                  (concatenated_mappings
                     (fst (run_statement one_match_world
                             (SimilarItems "kettle"))))).
Proof.
  repeat split; try (vm_compute; reflexivity).
  vm_compute. discriminate.
Qed.

(** C4, amended.  When the batch runs to its end, search_products returns
    every row of every result set, in fetch order, as a mapping keyed by
    the columns of the row's own result set, and a result without columns
    adds nothing; find_products accumulates the raw rows of every result
    set in fetch order, without column names, a result without rows adding
    nothing, and returns the text of that list. *)
Theorem similar_items_concatenation (repr_value : value -> string)
  (w : world) (term : string) (sets : list result_set) (s : state) :
  connect_error w = None ->
  run_statement w (SimilarItems term) = (sets, None) ->
  outcome_of (search_products w term) s
  = Return (mkProductSearchResponse term (concatenated_mappings sets))
  /\ outcome_of (find_products_results w term) s
     = Return (concatenated_rows sets)
  /\ outcome_of (find_products repr_value w term) s
     = Return (str_rows repr_value (concatenated_rows sets))
  /\ (forall before after,
         concatenated_mappings (before ++ NoResult :: after)
         = concatenated_mappings (before ++ after)
         /\ concatenated_rows (before ++ NoResult :: after)
            = concatenated_rows (before ++ after)).
Proof.
  intros Hc Hrun. unfold outcome_of.
  rewrite search_products_run, find_products_results_run, find_products_run
    by exact Hc.
  rewrite Hrun. simpl. repeat split.
  - now rewrite !concatenated_mappings_app.
  - now rewrite !concatenated_rows_app.
Qed.

Lemma similar_items_concatenation_witness :
  outcome_of (search_products one_match_world "kettle") init
  = Return (mkProductSearchResponse "kettle"
              [[("id", VInt 1); ("product_name", VStr "Kettle")];
               [("error", VNone)]])
  /\ outcome_of (find_products_results one_match_world "kettle") init
     = Return [[VInt 1; VStr "Kettle"]; [VNone]].
Proof.
  pose proof (similar_items_concatenation repr_plain one_match_world "kettle"
                _ init eq_refl eq_refl) as H.
  split; [exact (proj1 H) | exact (proj1 (proj2 H))].
Defined.

(** ** Parsing the model's answer (C5) *)

(** C5, as stated, fails: a parse failure can reach the caller.  When the
    model answers with an integer of 4301 digits, json.loads raises
    ValueError, which is not a JSONDecodeError; chat_structured does not
    catch it and leaves with it instead of returning the raw_response
    object. *)
Lemma value_error_is_surfaced :
  json_loads_plain (digits_text 4301)
  = Raise (ValueError
             "Exceeds the limit (4300 digits) for integer string conversion")
  /\ outcome_of (chat_structured repr_plain json_loads_plain
                   long_number_world (mkChatRequest "kettle")) init
     = Raise (ValueError
                "Exceeds the limit (4300 digits) for integer string conversion")
  /\ outcome_of (chat_structured repr_plain json_loads_plain
                   long_number_world (mkChatRequest "kettle")) init
     <> Return (JObj [("raw_response", JStr (digits_text 4301))]).
Proof.
  assert (H : outcome_of (chat_structured repr_plain json_loads_plain
                            long_number_world (mkChatRequest "kettle")) init
              = Raise (ValueError
                         "Exceeds the limit (4300 digits) for integer string conversion"))
    by (vm_compute; reflexivity).
  split; [vm_compute; reflexivity |].
  split; [exact H |]. rewrite H. discriminate.
Qed.

(** C5, amended.  Once the search text is there and the model has
    answered: if json.loads returns a value, chat_structured returns that
    value, unchanged and unchecked; if json.loads raises JSONDecodeError,
    it returns the object with the one field raw_response holding the
    answer, and that failure does not reach the caller; any other exception
    of json.loads leaves the handler. *)
Theorem chat_structured_parse (repr_value : value -> string)
  (json_loads : string -> outcome json) (w : world) (request : ChatRequest)
  (product_results response : string) (s s' : state) :
  find_products repr_value w (message_of request) s
  = (Return product_results, s') ->
  chat_model_invoke w
    [SystemMessage (structured_system_prompt product_results);
     HumanMessage (message_of request)] = Return response ->
  (forall parsed,
      json_loads response = Return parsed ->
      outcome_of (chat_structured repr_value json_loads w request) s
      = Return parsed)
  /\ (forall msg,
         json_loads response = Raise (JSONDecodeError msg) ->
         outcome_of (chat_structured repr_value json_loads w request) s
         = Return (JObj [("raw_response", JStr response)]))
  /\ (forall e,
         json_loads response = Raise e ->
         (forall msg, e <> JSONDecodeError msg) ->
         outcome_of (chat_structured repr_value json_loads w request) s
         = Raise e).
Proof.
  intros Hfind Hmodel.
  split; [intros parsed Hjson | split; [intros msg Hjson | intros e Hjson He]];
    unfold outcome_of, chat_structured, bind; rewrite Hfind;
    unfold invoke; rewrite Hmodel, Hjson; try reflexivity.
  destruct e; try reflexivity. now elim (He msg).
Qed.

Lemma chat_structured_parse_witness :
  outcome_of (chat_structured repr_plain json_loads_plain one_match_world
                (mkChatRequest "kettle")) init
  = Return (JObj [("recommendations", JArr []);
                  ("summary", JStr "No matches")]).
Proof.
  eapply (proj1 (chat_structured_parse repr_plain json_loads_plain
                   one_match_world (mkChatRequest "kettle")
                   _ _ init _ eq_refl eq_refl)).
  vm_compute. reflexivity.
Defined.

(** The fallback on the answer of the specification's example. *)
Example chat_structured_raw_response :
  outcome_of (chat_structured repr_plain json_loads_plain no_match_world
                (mkChatRequest "zzzznonexistent")) init
  = Return (JObj [("raw_response", JStr "I don't know")]).
Proof.
  vm_compute. reflexivity.
Qed.

(** ** A search that matches nothing (C6) *)

(** C6, as stated, fails: when the procedure finds nothing, search_products
    does not raise, but its results are not the empty sequence. *)
Lemma search_no_match_not_empty :
  outcome_of (search_products no_match_world "zzzznonexistent") init
  = Return (mkProductSearchResponse "zzzznonexistent" [[("error", VNone)]])
  /\ outcome_of (search_products no_match_world "zzzznonexistent") init
     <> Return (mkProductSearchResponse "zzzznonexistent" []).
Proof.
  split; [vm_compute; reflexivity | vm_compute; discriminate].
Qed.

(** C6, amended.  A product search whose procedure returns without any row
    does not raise: it returns the sequence whose only element is the
    mapping of the last SELECT, from "error" to the procedure's output
    value; a failure is told from it by the exception. *)
Theorem search_no_match_status_row (w : world) (query : string)
  (sets : list result_set) (out : value) (s : state) :
  connect_error w = None ->
  get_similar_items w query = ProcReturn sets out ->
  concatenated_rows sets = [] ->
  outcome_of (search_products w query) s
  = Return (mkProductSearchResponse query [[("error", out)]]).
Proof.
  intros Hc Hproc Hrows. unfold outcome_of.
  rewrite search_products_run by exact Hc.
  rewrite (similar_items_batch w query sets out Hproc). simpl.
  rewrite concatenated_mappings_app, (no_rows_no_mappings sets Hrows).
  reflexivity.
Qed.

Lemma search_no_match_status_row_witness :
  outcome_of (search_products no_match_world "zzzznonexistent") init
  = Return (mkProductSearchResponse "zzzznonexistent" [[("error", VNone)]]).
Proof.
  apply (search_no_match_status_row no_match_world "zzzznonexistent"
           [ResultSet [("id", "int"); ("product_name", "nvarchar")] []]
           VNone init); reflexivity.
Defined.

(** ** The product listing (C7, C8, C10) *)

(** C7, as stated, fails.  On a table that holds two rows of the same id
    pages 1 and 2 of size 1 return the same row, so they are not disjoint;
    and with page and page_size both the integer of 4300 digits the handler
    returns no page at all: the f-string raises ValueError. *)
Lemma pages_overlap_on_equal_ids :
  outcome_of (get_products twin_world 1 1) init
  = Return (mkProductsPageResponse 1 1 [product_mapping twin])
  /\ outcome_of (get_products twin_world 2 1) init
     = Return (mkProductsPageResponse 2 1 [product_mapping twin])
  /\ ~ (forall m, In m [product_mapping twin] ->
                  In m [product_mapping twin] -> False)
  /\ outcome_of (get_products twin_world longest_int longest_int) init
     = Raise (ValueError
                "Exceeds the limit (4300 digits) for integer string conversion").
Proof.
  split; [vm_compute; reflexivity |].
  split; [vm_compute; reflexivity |].
  split; [| vm_compute; reflexivity].
  intros H. apply (H (product_mapping twin)); now left.
Qed.

(** C7, amended.  With page and page_size at least 1, and the offset and
    page_size of at most 4300 digits, the listing returns at most page_size
    rows.  Pages 1 and 2 of size n and page 1 of size 2n are each ordered
    by id; and when the ids of the table are pairwise distinct, pages 1 and
    2 of size n, one after the other, are exactly page 1 of size 2n and
    have no row in common.  The three requests may find the rows of the
    table held in different orders. *)
Theorem pagination_consistency (w w1 w2 w12 : world) (page page_size n : Z)
  (s s1 s2 s12 : state) :
  connect_error w = None ->
  connect_error w1 = None -> connect_error w2 = None ->
  connect_error w12 = None ->
  same_rows w w1 -> same_rows w w2 -> same_rows w w12 ->
  1 <= page -> 1 <= page_size < int_str_bound ->
  (page - 1) * page_size < int_str_bound ->
  1 <= n -> 2 * n < int_str_bound ->
  exists r a b ab,
    outcome_of (get_products w page page_size) s = Return r
    /\ Z.of_nat (List.length (products_of r)) <= page_size
    /\ outcome_of (get_products w1 1 n) s1
       = Return (mkProductsPageResponse 1 n a)
    /\ outcome_of (get_products w2 2 n) s2
       = Return (mkProductsPageResponse 2 n b)
    /\ outcome_of (get_products w12 1 (2 * n)) s12
       = Return (mkProductsPageResponse 1 (2 * n) ab)
    /\ StronglySorted by_mapping_id a
    /\ StronglySorted by_mapping_id b
    /\ StronglySorted by_mapping_id ab
    /\ (NoDup (map p_id (product_table w)) ->
        a ++ b = ab /\ forall m, In m a -> In m b -> False).
Proof.
  intros Hc Hc1 Hc2 Hc12 Hw1 Hw2 Hw12 Hpage Hsize Hoff Hn Hn2.
  unfold outcome_of.
  rewrite (get_products_page w page page_size s Hc) by nia.
  rewrite (get_products_page w1 1 n s1 Hc1) by lia.
  rewrite (get_products_page w2 2 n s2 Hc2) by lia.
  rewrite (get_products_page w12 1 (2 * n) s12 Hc12) by lia.
  do 4 eexists. cbn [fst].
  split; [reflexivity |]. split.
  { cbn [products_of]. unfold offset_fetch.
    rewrite length_map, length_firstn. lia. }
  do 3 (split; [reflexivity |]).
  assert (Hsorted : forall w' o k,
             StronglySorted by_mapping_id
               (map product_mapping
                  (offset_fetch o k (order_by_id (product_table w'))))).
  { intros w' o k. apply product_mappings_sorted. unfold offset_fetch.
    pose proof (order_by_id_sorted (product_table w')) as Ht.
    rewrite <- (firstn_skipn (Z.to_nat o)) in Ht.
    apply sorted_app_inv in Ht as [_ Ht].
    rewrite <- (firstn_skipn (Z.to_nat k)) in Ht.
    now apply sorted_app_inv in Ht as [Ht _]. }
  do 3 (split; [apply Hsorted |]).
  intros Hnd.
  rewrite <- (order_by_id_same_rows _ _ Hnd Hw1),
    <- (order_by_id_same_rows _ _ Hnd Hw2),
    <- (order_by_id_same_rows _ _ Hnd Hw12).
  set (t := order_by_id (product_table w)).
  replace ((1 - 1) * n) with 0 by lia.
  replace ((2 - 1) * n) with n by lia.
  replace ((1 - 1) * (2 * n)) with 0 by lia.
  unfold offset_fetch.
  replace (Z.to_nat (2 * n)) with (Z.to_nat n + Z.to_nat n)%nat by lia.
  change (Z.to_nat 0) with 0%nat. cbn [skipn].
  split.
  - now rewrite <- map_app, firstn_then_firstn_skipn.
  - intros m Ha Hb.
    apply (pages_disjoint (Z.to_nat n) t m); try assumption.
    eapply Permutation_NoDup; [| exact Hnd].
    apply Permutation_map, Permutation_sym, order_by_id_perm.
Qed.

Lemma pagination_consistency_witness :
  exists r a b ab,
    outcome_of (get_products no_match_world 2 2) init = Return r
    /\ Z.of_nat (List.length (products_of r)) <= 2
    /\ outcome_of (get_products shuffled_world 1 1) init
       = Return (mkProductsPageResponse 1 1 a)
    /\ outcome_of (get_products no_match_world 2 1) init
       = Return (mkProductsPageResponse 2 1 b)
    /\ outcome_of (get_products shuffled_world 1 (2 * 1)) init
       = Return (mkProductsPageResponse 1 (2 * 1) ab)
    /\ StronglySorted by_mapping_id a
    /\ StronglySorted by_mapping_id b
    /\ StronglySorted by_mapping_id ab
    /\ (NoDup (map p_id (product_table no_match_world)) ->
        a ++ b = ab /\ forall m, In m a -> In m b -> False).
Proof.
  apply (pagination_consistency no_match_world shuffled_world no_match_world
           shuffled_world 2 2 1 init init init init);
    try reflexivity; try (split; [lia | reflexivity]); try lia;
    try apply Permutation_refl; try apply Permutation_rev.
Defined.

(** The two pages of the sample table, each from a table held in another
    order, and the page of both. *)
Example sample_pages :
  outcome_of (get_products shuffled_world 1 1) init
  = Return (mkProductsPageResponse 1 1
              [product_mapping
                 (mkProduct 1 (VStr "a1") (VStr "Kettle") (VStr "Kitchen")
                            (VInt 20) (VInt 18))])
  /\ outcome_of (get_products no_match_world 2 1) init
     = Return (mkProductsPageResponse 2 1
                 [product_mapping
                    (mkProduct 2 (VStr "b2") (VStr "Desk") (VStr "Office")
                               (VInt 90) (VInt 80))]).
Proof.
  split; vm_compute; reflexivity.
Qed.

(** C8, as stated, fails.  With page and page_size both the integer of
    4300 digits the listing issues no SELECT: the f-string raises
    ValueError and nothing is sent.  And with page 0 the SELECT is issued
    with OFFSET -10, the server rejects it, and the handler returns no rows
    but leaves with the server's error. *)
Lemma listing_not_always_issued :
  executes (added (get_products_endpoint no_match_world
                     (Some longest_int) (Some longest_int)) init) = []
  /\ outcome_of (get_products_endpoint no_match_world
                   (Some longest_int) (Some longest_int)) init
     = Raise (ValueError
                "Exceeds the limit (4300 digits) for integer string conversion")
  /\ executes (added (get_products_endpoint no_match_world (Some 0) None)
                     init)
     = [(products_query (-10) 10, [])]
  /\ outcome_of (get_products_endpoint no_match_world (Some 0) None) init
     = Raise (QueryError "invalid OFFSET or FETCH").
Proof.
  split; [vm_compute; reflexivity |].
  split; [vm_compute; reflexivity |].
  split; vm_compute; reflexivity.
Qed.

(** C8, amended.  The listing endpoint takes page 1 and page_size 10 when
    they are not given and computes offset = (page-1)*page_size.  When
    offset and page_size have at most 4300 digits it sends one statement,
    the SELECT of the six columns ordered by id with OFFSET offset ROWS
    FETCH NEXT page_size ROWS ONLY; and when moreover offset >= 0 and
    page_size >= 1, the server's answer to that text is the rows after the
    first offset of the table ordered by id, page_size of them at most, and
    the handler returns these rows in the server's order, each as the
    mapping from the columns of the answer to the row's values. *)
Theorem get_products_listing (w : world) (page page_size : option Z)
  (s : state) :
  connect_error w = None ->
  let p := match page with Some p => p | None => 1 end in
  let n := match page_size with Some n => n | None => 10 end in
  let offset := (p - 1) * n in
  let text :=
    (nl ++ "        SELECT id, item_id, product_name, product_category, price_retail, price_current" ++ nl
        ++ "        FROM dbo.walmart_ecommerce_product_details" ++ nl
        ++ "        ORDER BY id" ++ nl
        ++ "        OFFSET " ++ str_int offset ++ " ROWS FETCH NEXT "
        ++ str_int n ++ " ROWS ONLY" ++ nl
        ++ "    ")%string in
  Z.abs offset < int_str_bound ->
  Z.abs n < int_str_bound ->
  get_products_endpoint w None None = get_products w 1 10
  /\ executes (added (get_products_endpoint w page page_size) s)
     = [(text, [])]
  /\ (0 <= offset -> 1 <= n ->
      exists columns rows,
        run_sql w text [] = ([ResultSet columns rows], None)
        /\ rows = map product_row
                     (firstn (Z.to_nat n)
                        (skipn (Z.to_nat offset)
                           (order_by_id (product_table w))))
        /\ outcome_of (get_products_endpoint w page page_size) s
           = Return (mkProductsPageResponse p n
                       (map (fun row => dict (zip (map fst columns) row))
                            rows))).
Proof.
  intros Hc p n offset text Hoff Hn. unfold get_products_endpoint. fold p n.
  change text with (products_query offset n).
  split; [reflexivity |]. split.
  - unfold added. rewrite (get_products_run w p n s Hc). fold offset.
    rewrite !within_int_str_bound by assumption. simpl.
    destruct ((offset <? 0) || (n <=? 0)); simpl;
      rewrite skipn_length_app; reflexivity.
  - intros Hoff0 Hn1.
    change (run_sql w (products_query offset n) [])
      with (run_statement w (ProductsPage offset n)).
    rewrite run_statement_products.
    replace ((offset <? 0) || (n <=? 0)) with false
      by (symmetry; apply orb_false_iff;
          split; [apply Z.ltb_ge; lia | apply Z.leb_gt; lia]).
    do 2 eexists. split; [reflexivity |]. split; [reflexivity |].
    unfold outcome_of.
    rewrite (get_products_page w p n s Hc) by (fold offset; lia).
    fold offset. cbn [fst]. now rewrite product_rows_as_mappings.
Qed.

Lemma get_products_listing_witness :
  executes (added (get_products_endpoint no_match_world None (Some 2)) init)
  = [((nl ++ "        SELECT id, item_id, product_name, product_category, price_retail, price_current" ++ nl
          ++ "        FROM dbo.walmart_ecommerce_product_details" ++ nl
          ++ "        ORDER BY id" ++ nl
          ++ "        OFFSET " ++ str_int ((1 - 1) * 2) ++ " ROWS FETCH NEXT "
          ++ str_int 2 ++ " ROWS ONLY" ++ nl
          ++ "    ")%string, [])].
Proof.
  exact (proj1 (proj2 (get_products_listing no_match_world None (Some 2)
                         init eq_refl ltac:(vm_compute; reflexivity)
                         ltac:(vm_compute; reflexivity)))).
Defined.

(** The first page of two of the sample table. *)
Example get_products_first_two :
  outcome_of (get_products_endpoint no_match_world None (Some 2)) init
  = Return (mkProductsPageResponse 1 2
              (map product_mapping
                 [mkProduct 1 (VStr "a1") (VStr "Kettle") (VStr "Kitchen")
                            (VInt 20) (VInt 18);
                  mkProduct 2 (VStr "b2") (VStr "Desk") (VStr "Office")
                            (VInt 90) (VInt 80)])).
Proof.
  vm_compute. reflexivity.
Qed.

(** ** The health endpoint (C9) *)

(** C9.  In every world and from every state health_check returns the
    payload with status healthy and service SQL AI API and adds no call to
    the log: it does not read the world, so what the database and the model
    would do cannot change it. *)
Theorem health_check_always (w : world) (s : state) :
  health_check s
  = (Return [("status", "healthy"); ("service", "SQL AI API")], s)
  /\ added health_check s = [].
Proof.
  split; [reflexivity |].
  apply (added_nothing health_check s
           (Return [("status", "healthy"); ("service", "SQL AI API")])).
  reflexivity.
Qed.

(** ** No bounds on page and page_size (C10) *)

(** C10, as stated, fails twice.  With page 0 and page_size -10 the offset
    that the handler computes and sends is 10, which is not negative.  And
    with page minus the integer of 4300 digits and page_size that integer,
    the f-string raises ValueError: a local error, before any statement is
    sent. *)
Lemma offset_not_always_negative :
  added (get_products no_match_world 0 (-10)) init
  = [EvConnect 0; EvExecute 0 (products_query 10 (-10)) []]
  /\ ~ ((0 - 1) * (-10) < 0)
  /\ get_products no_match_world (- longest_int) longest_int init
     = (Raise (ValueError
                 "Exceeds the limit (4300 digits) for integer string conversion"),
        mkState 1 [EvConnect 0])
  /\ ~ (forall page page_size : Z,
          page <= 0 ->
          exists offset rest,
            added (get_products no_match_world page page_size) init
            = EvConnect 0
                :: EvExecute 0 (products_query offset page_size) [] :: rest
            /\ offset = (page - 1) * page_size
            /\ offset < 0).
Proof.
  split; [vm_compute; reflexivity |].
  split; [lia |].
  split; [vm_compute; reflexivity |].
  intros H. destruct (H 0 (-10) ltac:(lia)) as (offset & rest & _ & Ho & Hneg).
  lia.
Qed.

(** C10, amended.  The listing handler checks neither page nor page_size.
    Once connected, for every page and page_size whose offset
    (page-1)*page_size and page_size have at most 4300 digits, it raises
    nothing before the database call and sends the SELECT with that offset
    and that page_size written into its text, whatever they are; for page
    <= 0 and page_size >= 1 the offset is negative. *)
Theorem unchecked_page_offset (w : world) (page page_size : Z) (s : state) :
  connect_error w = None ->
  Z.abs ((page - 1) * page_size) < int_str_bound ->
  Z.abs page_size < int_str_bound ->
  exists offset rest,
    added (get_products w page page_size) s
    = EvConnect (next_conn s)
        :: EvExecute (next_conn s)
             (nl ++ "        SELECT id, item_id, product_name, product_category, price_retail, price_current" ++ nl
                 ++ "        FROM dbo.walmart_ecommerce_product_details" ++ nl
                 ++ "        ORDER BY id" ++ nl
                 ++ "        OFFSET " ++ str_int offset
                 ++ " ROWS FETCH NEXT " ++ str_int page_size
                 ++ " ROWS ONLY" ++ nl
                 ++ "    ")%string
             []
        :: rest
    /\ offset = (page - 1) * page_size
    /\ (page <= 0 -> 1 <= page_size -> offset < 0).
Proof.
  intros Hc Hoff Hn. exists ((page - 1) * page_size).
  pose proof (get_products_run w page page_size s Hc) as Hrun.
  rewrite !within_int_str_bound in Hrun by assumption. simpl in Hrun.
  destruct (((page - 1) * page_size <? 0) || (page_size <=? 0));
    rewrite (added_after _ _ _ _ _ Hrun); eexists;
    (split; [reflexivity | split; [reflexivity | nia]]).
Qed.

Lemma unchecked_page_offset_witness :
  exists offset rest,
    added (get_products no_match_world 0 10) init
    = EvConnect 0
        :: EvExecute 0
             (nl ++ "        SELECT id, item_id, product_name, product_category, price_retail, price_current" ++ nl
                 ++ "        FROM dbo.walmart_ecommerce_product_details" ++ nl
                 ++ "        ORDER BY id" ++ nl
                 ++ "        OFFSET " ++ str_int offset
                 ++ " ROWS FETCH NEXT " ++ str_int 10
                 ++ " ROWS ONLY" ++ nl
                 ++ "    ")%string
             []
        :: rest
    /\ offset = (0 - 1) * 10
    /\ (0 <= 0 -> 1 <= 10 -> offset < 0).
Proof.
  exact (unchecked_page_offset no_match_world 0 10 init eq_refl
           ltac:(vm_compute; reflexivity) ltac:(vm_compute; reflexivity)).
Defined.

(** The text sent for page 0 with the default page_size. *)
Example negative_offset_sent :
  log_of (get_products_endpoint no_match_world (Some 0) None) init
  = [EvConnect 0;
     EvExecute 0
       (nl ++ "        SELECT id, item_id, product_name, product_category, price_retail, price_current" ++ nl
           ++ "        FROM dbo.walmart_ecommerce_product_details" ++ nl
           ++ "        ORDER BY id" ++ nl
           ++ "        OFFSET -10 ROWS FETCH NEXT 10 ROWS ONLY" ++ nl
           ++ "    ")%string
       []]
  /\ outcome_of (get_products_endpoint no_match_world (Some 0) None) init
     = Raise (QueryError "invalid OFFSET or FETCH").
Proof.
  split; vm_compute; reflexivity.
Qed.

(** ** The two chat handlers, call by call *)

Lemma chat_state_run (repr_value : value -> string) (w : world)
  (request : ChatRequest) (s : state) :
  connect_error w = None ->
  chat repr_value w request s
  = match run_statement w (SimilarItems (message_of request)) with
    | (sets, None) =>
        let product_results :=
          str_rows repr_value (concatenated_rows sets) in
        let messages :=
          chat_messages chat_system_prompt product_results
                        (message_of request) in
        (match chat_model_invoke w messages with
         | Return a =>
             Return (mkChatResponse (message_of request) a
                                    (found_flag product_results))
         | Raise e => Raise e
         end,
         mkState (S (next_conn s))
           (log s ++ [EvConnect (next_conn s);
                      EvExecute (next_conn s) similar_items_sql
                                [message_of request];
                      EvCursorClose (next_conn s);
                      EvConnClose (next_conn s);
                      EvInvoke messages]))
    | (_, Some e) =>
        (Raise e,
         mkState (S (next_conn s))
           (log s ++ [EvConnect (next_conn s);
                      EvExecute (next_conn s) similar_items_sql
                                [message_of request]]))
    end.
Proof.
  intros Hc. unfold chat, bind.
  rewrite find_products_run by exact Hc.
  destruct (run_statement w (SimilarItems (message_of request)))
    as [sets [e |]]; [reflexivity |].
  unfold invoke, chat_messages; simpl.
  destruct (chat_model_invoke w _); simpl; rewrite <- app_assoc;
    reflexivity.
Qed.

Lemma chat_structured_state_run (repr_value : value -> string)
  (json_loads : string -> outcome json) (w : world)
  (request : ChatRequest) (s : state) :
  connect_error w = None ->
  chat_structured repr_value json_loads w request s
  = match run_statement w (SimilarItems (message_of request)) with
    | (sets, None) =>
        let product_results :=
          str_rows repr_value (concatenated_rows sets) in
        let messages :=
          chat_messages structured_system_prompt product_results
                        (message_of request) in
        (match chat_model_invoke w messages with
         | Return response =>
             match json_loads response with
             | Return parsed => Return parsed
             | Raise (JSONDecodeError _) =>
                 Return (JObj [("raw_response", JStr response)])
             | Raise e => Raise e
             end
         | Raise e => Raise e
         end,
         mkState (S (next_conn s))
           (log s ++ [EvConnect (next_conn s);
                      EvExecute (next_conn s) similar_items_sql
                                [message_of request];
                      EvCursorClose (next_conn s);
                      EvConnClose (next_conn s);
                      EvInvoke messages]))
    | (_, Some e) =>
        (Raise e,
         mkState (S (next_conn s))
           (log s ++ [EvConnect (next_conn s);
                      EvExecute (next_conn s) similar_items_sql
                                [message_of request]]))
    end.
Proof.
  intros Hc. unfold chat_structured, bind.
  rewrite find_products_run by exact Hc.
  destruct (run_statement w (SimilarItems (message_of request)))
    as [sets [e |]]; [reflexivity |].
  unfold invoke, chat_messages; simpl.
  destruct (chat_model_invoke w _) as [response | e]; simpl;
    rewrite <- app_assoc; [| reflexivity].
  destruct (json_loads response) as [parsed | []]; reflexivity.
Qed.

Lemma chat_connect_failure (repr_value : value -> string) (w : world)
  (request : ChatRequest) (s : state) (e : exn) :
  connect_error w = Some e ->
  chat repr_value w request s = (Raise e, s).
Proof.
  intros Hc. unfold chat, bind.
  now rewrite (connect_failure_find repr_value w _ s e Hc).
Qed.

Lemma chat_structured_connect_failure (repr_value : value -> string)
  (json_loads : string -> outcome json) (w : world)
  (request : ChatRequest) (s : state) (e : exn) :
  connect_error w = Some e ->
  chat_structured repr_value json_loads w request s = (Raise e, s).
Proof.
  intros Hc. unfold chat_structured, bind.
  now rewrite (connect_failure_find repr_value w _ s e Hc).
Qed.

(** The calls of a request have one of four shapes. *)
Lemma serve_calls (repr_value : value -> string)
  (json_loads : string -> outcome json) (w : world) (req : request)
  (s : state) :
  let l := added (serve repr_value json_loads w req) s in
  let c := next_conn s in
  l = []
  \/ (l = [EvConnect c]
      /\ finished (outcome_of (serve repr_value json_loads w req) s) = false)
  \/ (exists sql params,
         l = [EvConnect c; EvExecute c sql params]
         /\ finished (outcome_of (serve repr_value json_loads w req) s)
            = false)
  \/ (exists sql params,
         l = [EvConnect c; EvExecute c sql params;
              EvCursorClose c; EvConnClose c])
  \/ (exists sql params messages,
         l = [EvConnect c; EvExecute c sql params;
              EvCursorClose c; EvConnClose c; EvInvoke messages]
         /\ exists body, req = PostChat body \/ req = PostChatStructured body).
Proof.
  cbv zeta. unfold outcome_of.
  destruct (connect_error w) as [e |] eqn:Hc.
  - left. destruct req; unfold serve, get_products_endpoint.
    + now apply (added_nothing _ s
                   (Return (HealthPayload
                              [("status", "healthy");
                               ("service", "SQL AI API")]))).
    + apply (added_nothing _ s (Raise e)). unfold bind.
      now rewrite (connect_failure_list w _ _ s e Hc).
    + apply (added_nothing _ s (Raise e)). unfold bind.
      now rewrite (connect_failure_search w _ s e Hc).
    + apply (added_nothing _ s (Raise e)). unfold bind.
      now rewrite (chat_connect_failure repr_value w _ s e Hc).
    + apply (added_nothing _ s (Raise e)). unfold bind.
      now rewrite (chat_structured_connect_failure _ _ w _ s e Hc).
  - destruct req; unfold serve, get_products_endpoint.
    + left.
      now apply (added_nothing _ s
                   (Return (HealthPayload
                              [("status", "healthy");
                               ("service", "SQL AI API")]))).
    + unfold added, bind. rewrite (get_products_run w _ _ s Hc).
      destruct (_ && _); [destruct (_ || _) |];
        simpl; rewrite skipn_length_app;
        [right; right; left | right; right; right; left | right; left];
        eauto.
    + unfold added, bind. rewrite (search_products_run w _ s Hc).
      destruct (run_statement w (SimilarItems query)) as [sets [e |]];
        simpl; rewrite skipn_length_app;
        [right; right; left | right; right; right; left]; eauto.
    + unfold added, bind. rewrite (chat_state_run repr_value w _ s Hc).
      destruct (run_statement w (SimilarItems (message_of body)))
        as [sets [e |]]; cbv zeta.
      * simpl; rewrite skipn_length_app. right; right; left; eauto.
      * destruct (chat_model_invoke w _); simpl; rewrite skipn_length_app;
          right; right; right; right; do 3 eexists; split; eauto.
    + unfold added, bind.
      rewrite (chat_structured_state_run repr_value json_loads w _ s Hc).
      destruct (run_statement w (SimilarItems (message_of body)))
        as [sets [e |]]; cbv zeta.
      * simpl; rewrite skipn_length_app. right; right; left; eauto.
      * destruct (chat_model_invoke w _) as [response | e];
          [destruct (json_loads response) as [parsed | []] |];
          simpl; rewrite skipn_length_app; right; right; right; right;
          do 3 eexists; split; eauto.
Qed.

(** ** What every request sends and calls *)

(** X1.  On the search and chat routes, once connected, the request sends
    exactly one statement, and the user's text never enters its SQL text:
    the text is the same batch for every search term, and the term travels
    as its only parameter. *)
Theorem user_text_only_as_parameter (repr_value : value -> string)
  (json_loads : string -> outcome json) (w : world) (req : request)
  (term : string) (s : state) :
  connect_error w = None ->
  search_term_of req = Some term ->
  executes (added (serve repr_value json_loads w req) s)
  = [(("SET NOCOUNT ON;" ++ nl
         ++ "    DECLARE @out nvarchar(max);" ++ nl
         ++ "    EXEC [dbo].[get_similar_items] @inputText = ?, @error = @out OUTPUT;" ++ nl
         ++ "    SELECT @out AS error;")%string,
      [term])].
Proof.
  intros Hc Hterm.
  destruct req; unfold serve, get_products_endpoint;
    try discriminate Hterm; injection Hterm as <-.
  - unfold added, bind. rewrite (search_products_run w _ s Hc).
    destruct (run_statement w (SimilarItems query)) as [sets [e |]];
      simpl; rewrite skipn_length_app; reflexivity.
  - unfold added, bind. rewrite (chat_state_run repr_value w _ s Hc).
    destruct (run_statement w (SimilarItems (message_of body)))
      as [sets [e |]]; cbv zeta;
      [| destruct (chat_model_invoke w _)];
      simpl; rewrite skipn_length_app; reflexivity.
  - unfold added, bind.
    rewrite (chat_structured_state_run repr_value json_loads w _ s Hc).
    destruct (run_statement w (SimilarItems (message_of body)))
      as [sets [e |]]; cbv zeta;
      [| destruct (chat_model_invoke w _) as [response | e];
         [destruct (json_loads response) as [parsed | []] |]];
      simpl; rewrite skipn_length_app; reflexivity.
Qed.

Lemma user_text_only_as_parameter_witness :
  executes (added (serve repr_plain json_loads_plain one_match_world
                     (PostChat (mkChatRequest "x'; DROP TABLE t; --")))
                  init)
  = [(("SET NOCOUNT ON;" ++ nl
         ++ "    DECLARE @out nvarchar(max);" ++ nl
         ++ "    EXEC [dbo].[get_similar_items] @inputText = ?, @error = @out OUTPUT;" ++ nl
         ++ "    SELECT @out AS error;")%string,
      ["x'; DROP TABLE t; --"])].
Proof.
  exact (user_text_only_as_parameter repr_plain json_loads_plain
           one_match_world (PostChat (mkChatRequest "x'; DROP TABLE t; --"))
           "x'; DROP TABLE t; --" init eq_refl eq_refl).
Defined.

(** X2.  When the search of a chat request succeeds, chat and
    chat_structured make these calls and no other, whatever the model and
    json.loads do afterwards: connect, the batch, cursor close, connection
    close, and then one call of the model with two messages, the system
    prompt that embeds the search text and the user's message.  The
    connection is closed before the model is called. *)
Theorem model_called_once_after_close (repr_value : value -> string)
  (json_loads : string -> outcome json) (w : world) (body : ChatRequest)
  (sets : list result_set) (s : state) :
  connect_error w = None ->
  run_statement w (SimilarItems (message_of body)) = (sets, None) ->
  let c := next_conn s in
  let product_results := str_rows repr_value (concatenated_rows sets) in
  added (chat repr_value w body) s
  = [EvConnect c; EvExecute c similar_items_sql [message_of body];
     EvCursorClose c; EvConnClose c;
     EvInvoke [SystemMessage (chat_system_prompt product_results);
               HumanMessage (message_of body)]]
  /\ added (chat_structured repr_value json_loads w body) s
     = [EvConnect c; EvExecute c similar_items_sql [message_of body];
        EvCursorClose c; EvConnClose c;
        EvInvoke [SystemMessage (structured_system_prompt product_results);
                  HumanMessage (message_of body)]].
Proof.
  intros Hc Hrun. cbv zeta. unfold added.
  rewrite (chat_state_run repr_value w _ s Hc),
    (chat_structured_state_run repr_value json_loads w _ s Hc), Hrun.
  cbv zeta. simpl. now rewrite !skipn_length_app.
Qed.

Lemma model_called_once_after_close_witness :
  invocations (added (chat repr_plain silent_model_world
                        (mkChatRequest "kettle")) init) = 1%nat
  /\ closes 0 (added (chat_structured repr_plain json_loads_plain
                        silent_model_world (mkChatRequest "kettle")) init)
     = 1%nat.
Proof.
  destruct (model_called_once_after_close repr_plain json_loads_plain
              silent_model_world (mkChatRequest "kettle") _ init
              eq_refl eq_refl) as [H1 H2].
  rewrite H1, H2. split; reflexivity.
Defined.

Lemma find_products_never_invokes (repr_value : value -> string)
  (w : world) (term : string) (s : state) :
  invocations (added (find_products repr_value w term) s) = 0%nat.
Proof.
  destruct (connect_error w) as [e |] eqn:Hc.
  - now rewrite (added_nothing _ s _
                   (connect_failure_find repr_value w term s e Hc)).
  - unfold added. rewrite (find_products_run repr_value w term s Hc).
    destruct (run_statement w (SimilarItems term)) as [sets [e |]];
      simpl; rewrite skipn_length_app; reflexivity.
Qed.

(** X3.  When the search of a chat request raises, be it on connecting or
    in the batch, chat and chat_structured leave with the same exception
    and the model is never called. *)
Theorem search_failure_skips_model (repr_value : value -> string)
  (json_loads : string -> outcome json) (w : world) (body : ChatRequest)
  (e : exn) (s : state) :
  outcome_of (find_products repr_value w (message_of body)) s = Raise e ->
  outcome_of (chat repr_value w body) s = Raise e
  /\ outcome_of (chat_structured repr_value json_loads w body) s = Raise e
  /\ invocations (added (chat repr_value w body) s) = 0%nat
  /\ invocations (added (chat_structured repr_value json_loads w body) s)
     = 0%nat.
Proof.
  intros Hfind.
  pose proof (find_products_never_invokes repr_value w (message_of body) s)
    as Hinv.
  unfold outcome_of, added in *. unfold chat, chat_structured, bind.
  destruct (find_products repr_value w (message_of body) s) as [[t | e'] s'];
    simpl in *; [discriminate |].
  injection Hfind as ->. now repeat split.
Qed.

Lemma search_failure_skips_model_witness :
  outcome_of (chat repr_plain failing_world (mkChatRequest "x")) init
  = Raise (QueryError "get_similar_items failed")
  /\ invocations (added (chat repr_plain failing_world (mkChatRequest "x"))
                        init) = 0%nat.
Proof.
  pose proof (search_failure_skips_model repr_plain json_loads_plain
                failing_world (mkChatRequest "x")
                (QueryError "get_similar_items failed") init eq_refl) as H.
  split; [exact (proj1 H) | exact (proj1 (proj2 (proj2 H)))].
Defined.

(** X4.  When the search succeeds and the model raises, chat and
    chat_structured leave with the model's exception: the model was called
    once and not again, json.loads is not consulted, and the connection has
    been closed once. *)
Theorem model_failure_propagates (repr_value : value -> string)
  (json_loads : string -> outcome json) (w : world) (body : ChatRequest)
  (sets : list result_set) (e : exn) (s : state) :
  connect_error w = None ->
  run_statement w (SimilarItems (message_of body)) = (sets, None) ->
  let product_results := str_rows repr_value (concatenated_rows sets) in
  (chat_model_invoke w
     (chat_messages chat_system_prompt product_results (message_of body))
   = Raise e ->
   outcome_of (chat repr_value w body) s = Raise e
   /\ invocations (added (chat repr_value w body) s) = 1%nat
   /\ closes (next_conn s) (added (chat repr_value w body) s) = 1%nat)
  /\ (chat_model_invoke w
        (chat_messages structured_system_prompt product_results
                       (message_of body))
      = Raise e ->
      outcome_of (chat_structured repr_value json_loads w body) s = Raise e
      /\ invocations (added (chat_structured repr_value json_loads w body) s)
         = 1%nat
      /\ closes (next_conn s)
                (added (chat_structured repr_value json_loads w body) s)
         = 1%nat).
Proof.
  intros Hc Hrun. cbv zeta. unfold outcome_of, added.
  rewrite (chat_state_run repr_value w _ s Hc),
    (chat_structured_state_run repr_value json_loads w _ s Hc), Hrun.
  cbv zeta.
  split; intros Hmodel; rewrite Hmodel; simpl; rewrite skipn_length_app;
    simpl; rewrite Nat.eqb_refl; now repeat split.
Qed.

Lemma model_failure_propagates_witness :
  outcome_of (chat repr_plain silent_model_world (mkChatRequest "kettle"))
             init
  = Raise (ChatModelError "model unreachable")
  /\ outcome_of (chat_structured repr_plain json_loads_plain
                   silent_model_world (mkChatRequest "kettle")) init
     = Raise (ChatModelError "model unreachable").
Proof.
  destruct (model_failure_propagates repr_plain json_loads_plain
              silent_model_world (mkChatRequest "kettle") _
              (ChatModelError "model unreachable") init eq_refl eq_refl)
    as [H1 H2].
  split; [exact (proj1 (H1 eq_refl)) | exact (proj1 (H2 eq_refl))].
Defined.

(** X5.  The test that chat applies to the search text is the emptiness
    test of the list of rows behind it: for every list of rows, and every
    repr of the scalars, bool(str(rows) and str(rows) != "[]") is false for
    the empty list and true for every other. *)
Theorem found_flag_tests_emptiness (repr_value : value -> string)
  (rs : list row) :
  found_flag (str_rows repr_value rs)
  = negb (Nat.eqb (List.length rs) 0).
Proof.
  destruct rs as [| r rs].
  - reflexivity.
  - simpl. apply found_flag_iff. split.
    + unfold str_rows, str_list. discriminate.
    + apply str_rows_nonempty.
Qed.

(** ** Pages of the listing *)

(** X6.  With page and page_size at least 1, and the offset and page_size
    of at most 4300 digits, the listing returns, with page and page_size
    echoed, exactly the rows that are left after the first
    (page-1)*page_size of the table, up to page_size of them: a full page
    inside the table, the remainder on the last page, and no row, not an
    error, for a page past the end. *)
Theorem page_row_count (w : world) (page page_size : Z) (s : state) :
  connect_error w = None ->
  1 <= page -> 1 <= page_size < int_str_bound ->
  (page - 1) * page_size < int_str_bound ->
  exists r,
    outcome_of (get_products w page page_size) s = Return r
    /\ page_of r = page
    /\ page_size_of r = page_size
    /\ Z.of_nat (List.length (products_of r))
       = Z.min page_size
           (Z.max 0 (Z.of_nat (List.length (product_table w))
                     - (page - 1) * page_size)).
Proof.
  intros Hc Hp Hn Hoff. unfold outcome_of.
  rewrite (get_products_page w page page_size s Hc) by nia.
  eexists. split; [reflexivity |]. cbn [page_of page_size_of products_of].
  repeat split.
  unfold offset_fetch.
  rewrite length_map, length_firstn, length_skipn,
    (Permutation_length (order_by_id_perm (product_table w))).
  nia.
Qed.

Lemma page_row_count_witness :
  exists r,
    outcome_of (get_products no_match_world 2 2) init = Return r
    /\ page_of r = 2
    /\ page_size_of r = 2
    /\ Z.of_nat (List.length (products_of r))
       = Z.min 2
           (Z.max 0 (Z.of_nat (List.length (product_table no_match_world))
                     - (2 - 1) * 2)).
Proof.
  apply (page_row_count no_match_world 2 2 init);
    [reflexivity | lia | split; [lia | reflexivity] | reflexivity].
Defined.

Lemma in_some_window {A : Type} (x : A) (l : list A) (n : nat) :
  (0 < n)%nat -> In x l ->
  exists k, (k * n < List.length l)%nat
            /\ In x (firstn n (skipn (k * n) l)).
Proof.
  intros Hn Hin. apply In_nth_error in Hin as [i Hi].
  assert (Hlen : (i < List.length l)%nat)
    by (apply nth_error_Some; congruence).
  exists (i / n)%nat. split.
  - pose proof (Nat.div_mod_eq i n). nia.
  - apply (nth_error_In _ (i mod n)).
    rewrite nth_error_firstn.
    assert (Hlt : (i mod n < n)%nat) by (apply Nat.mod_upper_bound; lia).
    apply Nat.ltb_lt in Hlt. rewrite Hlt, nth_error_skipn.
    replace (i / n * n + i mod n)%nat with i; [exact Hi |].
    rewrite (Nat.div_mod_eq i n) at 1. lia.
Qed.

(** X7.  On a table whose ids are pairwise distinct and whose rows number
    fewer than a 4300-digit integer, paging with any page_size of at least
    1 (and at most 4300 digits) reaches the whole table: every product has
    one page on which the listing returns it, whatever the order in which
    the table holds its rows at the request. *)
Theorem every_product_on_some_page (w : world) (p : product)
  (page_size : Z) :
  NoDup (map p_id (product_table w)) ->
  Z.of_nat (List.length (product_table w)) < int_str_bound ->
  1 <= page_size < int_str_bound ->
  In p (product_table w) ->
  exists page,
    1 <= page
    /\ forall w' s,
         connect_error w' = None -> same_rows w w' ->
         exists r,
           outcome_of (get_products w' page page_size) s = Return r
           /\ In (product_mapping p) (products_of r).
Proof.
  intros Hnd Hlen Hn Hin.
  assert (Hsorted : In p (order_by_id (product_table w)))
    by (eapply Permutation_in;
        [apply Permutation_sym, order_by_id_perm | exact Hin]).
  destruct (in_some_window p _ (Z.to_nat page_size) ltac:(lia) Hsorted)
    as [k [Hk Hpk]].
  rewrite (Permutation_length (order_by_id_perm (product_table w))) in Hk.
  exists (Z.of_nat k + 1). split; [lia |].
  intros w' s Hc Hsame. unfold outcome_of.
  rewrite (get_products_page w' _ page_size s Hc) by nia.
  eexists. split; [reflexivity |]. cbn [products_of].
  rewrite <- (order_by_id_same_rows _ _ Hnd Hsame).
  apply in_map. unfold offset_fetch.
  replace (Z.to_nat ((Z.of_nat k + 1 - 1) * page_size))
    with (k * Z.to_nat page_size)%nat by nia.
  exact Hpk.
Qed.

Lemma every_product_on_some_page_witness :
  exists page,
    1 <= page
    /\ forall w' s,
         connect_error w' = None -> same_rows no_match_world w' ->
         exists r,
           outcome_of (get_products w' page 2) s = Return r
           /\ In (product_mapping
                    (mkProduct 3 (VStr "c3") (VStr "Lamp") (VStr "Home")
                               (VInt 30) (VInt 25)))
                 (products_of r).
Proof.
  apply (every_product_on_some_page no_match_world
           (mkProduct 3 (VStr "c3") (VStr "Lamp") (VStr "Home")
                      (VInt 30) (VInt 25)) 2).
  - simpl. repeat constructor; simpl; intuition discriminate.
  - reflexivity.
  - split; [lia | reflexivity].
  - simpl. auto.
Defined.

(** ** The mappings built from a row *)

Lemma dict_set_keys_in (k : string) (v : value) (d : mapping) (x : string) :
  In x (map fst (dict_set k v d)) -> x = k \/ In x (map fst d).
Proof.
  induction d as [| [k' v'] d IH]; simpl.
  - intros [<- | []]. now left.
  - destruct (String.eqb_spec k k') as [-> | Hne]; simpl.
    + intros [<- | H]; right; auto.
    + intros [<- | H]; [right; now left |].
      destruct (IH H) as [-> | H']; [now left | right; now right].
Qed.

Lemma dict_set_nodup (k : string) (v : value) (d : mapping) :
  NoDup (map fst d) -> NoDup (map fst (dict_set k v d)).
Proof.
  induction d as [| [k' v'] d IH]; simpl; intros Hnd.
  - constructor; [intros [] | constructor].
  - inversion Hnd as [| ? ? Hnotin Hnd']; subst.
    destruct (String.eqb_spec k k') as [-> | Hne]; simpl.
    + now constructor.
    + constructor; [| now apply IH].
      intros H. apply dict_set_keys_in in H as [-> | H]; auto.
Qed.

Lemma dict_keys_nodup (pairs : list (string * value)) :
  NoDup (map fst (dict pairs)).
Proof.
  unfold dict.
  assert (H : forall d, NoDup (map fst d) ->
                NoDup (map fst (fold_left
                                  (fun d kv => dict_set (fst kv) (snd kv) d)
                                  pairs d))).
  { induction pairs as [| [k v] pairs IH]; simpl; intros d Hd;
      [exact Hd | apply IH, dict_set_nodup, Hd]. }
  apply H. constructor.
Qed.

Lemma dict_get_set (k k' : string) (v : value) (d : mapping) :
  dict_get k (dict_set k' v d)
  = if String.eqb k k' then Some v else dict_get k d.
Proof.
  induction d as [| [k1 v1] d IH]; simpl.
  - reflexivity.
  - destruct (String.eqb_spec k' k1) as [-> | Hne]; simpl.
    + now destruct (String.eqb k k1).
    + destruct (String.eqb_spec k k1) as [-> | Hne'].
      * destruct (String.eqb_spec k1 k') as [-> | _]; [now elim Hne |].
        reflexivity.
      * exact IH.
Qed.

Lemma dict_get_app (k : string) (d d' : mapping) :
  dict_get k (d ++ d')
  = match dict_get k d with
    | Some v => Some v
    | None => dict_get k d'
    end.
Proof.
  induction d as [| [k1 v1] d IH]; simpl; [reflexivity |].
  now destruct (String.eqb k k1).
Qed.

Lemma dict_get_fold (k : string) (pairs : list (string * value)) :
  forall d,
    dict_get k (fold_left (fun d kv => dict_set (fst kv) (snd kv) d) pairs d)
    = match dict_get k (rev pairs) with
      | Some v => Some v
      | None => dict_get k d
      end.
Proof.
  induction pairs as [| [k1 v1] pairs IH]; simpl; intros d.
  - reflexivity.
  - rewrite IH, dict_get_app, dict_get_set. simpl.
    destruct (dict_get k (rev pairs)); [reflexivity |].
    now destruct (String.eqb k k1).
Qed.

(** X8.  Every mapping that search_products returns has pairwise distinct
    keys, also when a result set names a column twice. *)
Theorem search_mappings_have_distinct_keys (w : world) (query : string)
  (r : ProductSearchResponse) (s : state) :
  outcome_of (search_products w query) s = Return r ->
  Forall (fun m => NoDup (map fst m)) (results_of r).
Proof.
  unfold outcome_of. intros Hr.
  destruct (connect_error w) as [e |] eqn:Hc.
  - rewrite (connect_failure_search w query s e Hc) in Hr. discriminate.
  - rewrite (search_products_run w query s Hc) in Hr.
    destruct (run_statement w (SimilarItems query)) as [sets [e |]];
      simpl in Hr; [discriminate |].
    injection Hr as <-. cbn [results_of].
    unfold concatenated_mappings. apply Forall_concat, Forall_map.
    apply Forall_forall. intros [| [| c d] rows] _; simpl;
      try constructor.
    apply Forall_map, Forall_forall. intros row _. apply dict_keys_nodup.
Qed.

Lemma search_mappings_have_distinct_keys_witness :
  Forall (fun m => NoDup (map fst m))
    [[("id", VInt 1); ("product_name", VStr "Kettle")]; [("error", VNone)]].
Proof.
  exact (search_mappings_have_distinct_keys one_match_world "kettle"
           (mkProductSearchResponse "kettle"
              [[("id", VInt 1); ("product_name", VStr "Kettle")];
               [("error", VNone)]])
           init eq_refl).
Defined.

(** X9.  In the mapping built from a row, dict(zip(columns, row)), a column
    name maps to the value at its last occurrence among the columns that
    have a value in the row; a name outside them has no entry. *)
Theorem duplicate_column_keeps_last (columns : list string) (r : row)
  (k : string) :
  dict_get k (dict (zip columns r)) = dict_get k (rev (zip columns r)).
Proof.
  unfold dict. rewrite dict_get_fold.
  now destruct (dict_get k (rev (zip columns r))).
Qed.

(** A search over a result set that names a column twice. *)
Example search_duplicate_column :
  outcome_of (search_products duplicate_column_world "x") init
  = Return (mkProductSearchResponse "x"
              [[("name", VStr "second")]; [("error", VNone)]])
  /\ outcome_of (find_products repr_plain duplicate_column_world "x") init
     = Return "[('first', 'second'), (None,)]".
Proof.
  split; vm_compute; reflexivity.
Qed.

(** ** The two forms of the search side by side *)

Lemma mappings_as_many_as_rows (sets : list result_set) :
  Forall rows_have_columns sets ->
  List.length (concatenated_mappings sets)
  = List.length (concatenated_rows sets).
Proof.
  unfold concatenated_mappings, concatenated_rows.
  induction sets as [| r sets IH]; simpl; intros H; [reflexivity |].
  inversion H as [| ? ? Hr Hs]; subst.
  rewrite !length_app, (IH Hs). f_equal.
  destruct r as [| [| c d] rows]; simpl.
  - reflexivity.
  - now rewrite (Hr rows eq_refl).
  - apply length_map.
Qed.

(** X10.  On the same search term, when the batch runs to its end and every
    result that has rows has columns, search_products returns exactly as
    many mappings as find_products accumulates rows: the prompt of the chat
    and the search response show the same rows. *)
Theorem both_forms_same_row_count (w : world) (term : string)
  (sets : list result_set) (s s' : state) :
  connect_error w = None ->
  run_statement w (SimilarItems term) = (sets, None) ->
  Forall rows_have_columns sets ->
  exists rows r,
    outcome_of (find_products_results w term) s = Return rows
    /\ outcome_of (search_products w term) s' = Return r
    /\ List.length (results_of r) = List.length rows.
Proof.
  intros Hc Hrun Hcols. unfold outcome_of.
  rewrite (find_products_results_run w term s Hc),
    (search_products_run w term s' Hc), Hrun.
  do 2 eexists. split; [reflexivity |]. split; [reflexivity |].
  now apply mappings_as_many_as_rows.
Qed.

Lemma both_forms_same_row_count_witness :
  exists rows r,
    outcome_of (find_products_results one_match_world "kettle") init
    = Return rows
    /\ outcome_of (search_products one_match_world "kettle") init = Return r
    /\ List.length (results_of r) = List.length rows.
Proof.
  apply (both_forms_same_row_count one_match_world "kettle" _ init init
           eq_refl eq_refl).
  repeat constructor; intros rows H; discriminate H.
Defined.

(** ** Connections and model calls of a request *)

(** X12.  Whatever the route and whatever happens, a request opens at most
    one connection, closes no connection twice and calls the model at most
    once, and only the two chat routes call it at all; when the request is
    answered, every connection it opened has been closed exactly once. *)
Theorem request_resource_discipline (repr_value : value -> string)
  (json_loads : string -> outcome json) (w : world) (req : request)
  (s : state) :
  let l := added (serve repr_value json_loads w req) s in
  (List.length (opened l) <= 1)%nat
  /\ (forall c, closes c l <= 1)%nat
  /\ (invocations l <= 1)%nat
  /\ (invocations l = 1%nat ->
      exists body, req = PostChat body \/ req = PostChatStructured body)
  /\ (finished (outcome_of (serve repr_value json_loads w req) s) = true ->
      closes_each_once l).
Proof.
  cbv zeta.
  destruct (serve_calls repr_value json_loads w req s)
    as [Hl | [[Hl Hfin] | [(sql & params & Hl & Hfin) | [(sql & params & Hl)
       | (sql & params & messages & Hl & Hreq)]]]];
    rewrite Hl; unfold closes_each_once; simpl;
    repeat split; try lia; try discriminate; try assumption;
    try (intros c; destruct (Nat.eqb c (next_conn s)); lia);
    try (rewrite Hfin; discriminate);
    try (intros _ c [<- | []]; now rewrite Nat.eqb_refl);
    try (intros _ c []).
  intros _. exact Hreq.
Qed.

Lemma request_resource_discipline_witness :
  closes_each_once
    (added (serve repr_plain json_loads_plain one_match_world
              (PostChatStructured (mkChatRequest "kettle"))) init).
Proof.
  exact (proj2 (proj2 (proj2 (proj2
           (request_resource_discipline repr_plain json_loads_plain
              one_match_world (PostChatStructured (mkChatRequest "kettle"))
              init)))) eq_refl).
Defined.

(** ** Errors of json.loads other than JSONDecodeError *)

(** X13.  chat_structured recovers from JSONDecodeError only: when the
    search text is there, the model has answered and json.loads raises any
    other exception, that exception leaves the handler. *)
Theorem only_decode_errors_recovered (repr_value : value -> string)
  (json_loads : string -> outcome json) (w : world) (request : ChatRequest)
  (product_results response : string) (e : exn) (s s' : state) :
  find_products repr_value w (message_of request) s
  = (Return product_results, s') ->
  chat_model_invoke w
    [SystemMessage (structured_system_prompt product_results);
     HumanMessage (message_of request)] = Return response ->
  json_loads response = Raise e ->
  (forall msg, e <> JSONDecodeError msg) ->
  outcome_of (chat_structured repr_value json_loads w request) s = Raise e.
Proof.
  intros Hfind Hmodel Hjson He.
  unfold outcome_of, chat_structured, bind. rewrite Hfind.
  unfold invoke. rewrite Hmodel, Hjson.
  destruct e; try reflexivity. now elim (He msg).
Qed.

Lemma only_decode_errors_recovered_witness :
  outcome_of (chat_structured repr_plain json_loads_type_error
                one_match_world (mkChatRequest "kettle")) init
  = Raise (TypeError "the JSON object must be str, bytes or bytearray").
Proof.
  eapply (only_decode_errors_recovered repr_plain json_loads_type_error
            one_match_world (mkChatRequest "kettle") _ _ _ init _
            eq_refl eq_refl eq_refl).
  intros msg H. discriminate H.
Defined.

(** ** An unreachable database *)

(** X14.  When connecting fails, every route but the health check leaves
    with the driver's error before it sends a statement or calls the model:
    nothing is added to the log.  The health check is answered all the
    same. *)
Theorem connect_failure_stops_request (repr_value : value -> string)
  (json_loads : string -> outcome json) (w : world) (req : request)
  (e : exn) (s : state) :
  connect_error w = Some e ->
  serve repr_value json_loads w req s
  = match req with
    | GetRoot =>
        (Return (HealthPayload
                   [("status", "healthy"); ("service", "SQL AI API")]), s)
    | _ => (Raise e, s)
    end.
Proof.
  intros Hc. destruct req; unfold serve, bind, get_products_endpoint.
  - reflexivity.
  - now rewrite (connect_failure_list w _ _ s e Hc).
  - now rewrite (connect_failure_search w _ s e Hc).
  - now rewrite (chat_connect_failure repr_value w _ s e Hc).
  - now rewrite (chat_structured_connect_failure _ _ w _ s e Hc).
Qed.

Lemma connect_failure_stops_request_witness :
  serve repr_plain json_loads_plain unreachable_world
        (PostChat (mkChatRequest "kettle")) init
  = (Raise (ConnectionError "server unreachable"), init).
Proof.
  exact (connect_failure_stops_request repr_plain json_loads_plain
           unreachable_world (PostChat (mkChatRequest "kettle"))
           (ConnectionError "server unreachable") init eq_refl).
Defined.
